(** * Home Assistant sensor platforms: Sense energy monitor and Reddit

    A shallow embedding of [homeassistant/components/sense/sensor.py] and of
    the Reddit sensor platform exercised by
    [tests/components/reddit/test_sensor.py], with the properties the
    specification states about them. *)

From Stdlib Require Import ZArith String Ascii List Bool Lia.
From stdpp Require Import base gmap strings list sorting.

Open Scope string_scope.
Open Scope Z_scope.

(** ** Python control flow: exceptions, early return, mutable state *)

(** The exceptions the platform code can meet.  [SenseAPITimeoutException] is
    the class imported from [sense_energy]; every other exception class is
    kept by name. *)
Inductive exn :=
| SenseAPITimeoutException
| OtherException (name : string).

Definition is_SenseAPITimeoutException (e : exn) : bool :=
  match e with
  | SenseAPITimeoutException => true
  | OtherException _ => false
  end.

(** How a block of statements ends: it falls through with a value, it
    executes [return], or it raises. *)
Inductive completion (A : Type) :=
| Normal (a : A)
| Return_
| Raise (e : exn).

Arguments Normal {A} a.
Arguments Return_ {A}.
Arguments Raise {A} e.

(** Statements over a mutable store [S].  Mutations made before a [return]
    or a [raise] stay in the store, as in Python. *)
Record M (S A : Type) := Run { run : S -> completion A * S }.

Arguments Run {S A} _.
Arguments run {S A} _ _.

#[global] Instance M_ret {S} : MRet (M S) :=
  fun A a => Run (fun s => (Normal a, s)).

#[global] Instance M_bind {S} : MBind (M S) :=
  fun A B k m =>
    Run (fun s =>
           match run m s with
           | (Normal a, s') => run (k a) s'
           | (Return_, s') => (Return_, s')
           | (Raise e, s') => (Raise e, s')
           end).

Definition get {S} : M S S := Run (fun s => (Normal s, s)).

Definition modify {S} (f : S -> S) : M S unit := Run (fun s => (Normal tt, f s)).

Definition raise {S A} (e : exn) : M S A := Run (fun s => (Raise e, s)).

(** The [return] statement (without a value). *)
Definition return_ {S A} : M S A := Run (fun s => (Return_, s)).

(** [try: body except cls: handler], where [catches] decides whether the
    raised exception is an instance of [cls]. *)
Definition try_except {S} (body : M S unit) (catches : exn -> bool)
    (handler : M S unit) : M S unit :=
  Run (fun s =>
         match run body s with
         | (Raise e, s') => if catches e then run handler s' else (Raise e, s')
         | r => r
         end).

(** The boundary of a function body: a [return] inside it ends the call
    normally, an exception leaves the call. *)
Definition def {S} (body : M S unit) : M S unit :=
  Run (fun s =>
         match run body s with
         | (Return_, s') => (Normal tt, s')
         | r => r
         end).

(** A statement on the first or on the second component of a paired store. *)
Definition on_fst {S T A} (m : M S A) : M (S * T) A :=
  Run (fun st => let '(r, s') := run m (fst st) in (r, (s', snd st))).

Definition on_snd {S T A} (m : M T A) : M (S * T) A :=
  Run (fun st => let '(r, t') := run m (snd st) in (r, (fst st, t'))).

(** ** Python lists and strings *)

(** [l.append(x)]. *)
Definition list_append {A} (l : list A) (x : A) : list A := (l ++ [x])%list.

(** [str.lower] on ASCII text. *)

Definition lower_ascii (c : ascii) : ascii :=
  let n := N_of_ascii c in
  if ((65 <=? n) && (n <=? 90))%N then ascii_of_N (n + 32) else c.

Fixpoint lower (s : string) : string :=
  match s with
  | EmptyString => EmptyString
  | String c s' => String (lower_ascii c) (lower s')
  end.

(** ** Python's [round] on the numeric readings *)

(** The readings of the energy monitor are finite numbers of the wrapped
    library; the platform only applies [round(x)] and [round(x, ndigits)] to
    them, which yield an [int] and a number of the same kind. *)
Class Round (num : Type) := {
  round : num -> Z;
  round_ndigits : num -> Z -> num
}.

(** Rounding half to even of [a / q], for [0 < q]. *)
Definition half_even (a q : Z) : Z :=
  let d := a / q in
  let r := a mod q in
  if 2 * r <? q then d
  else if q <? 2 * r then d + 1
  else if Z.even d then d else d + 1.

(** Decimal readings with three fractional digits, rounded as Python rounds
    exact decimals: half to even. *)
Record fixed3 := Fixed3 { thousandths : Z }.

#[global] Instance fixed3_Round : Round fixed3 := {
  round x := half_even (thousandths x) 1000;
  round_ndigits x ndigits :=
    if 3 <=? ndigits then x
    else let q := 10 ^ (3 - ndigits) in Fixed3 (q * half_even (thousandths x) q)
}.

(** ** The Sense energy sensor platform
    ([homeassistant/components/sense/sensor.py]) *)

Module sense.

Definition ACTIVE_NAME : string := "Energy".
Definition ACTIVE_TYPE : string := "active".

Definition CONSUMPTION_NAME : string := "Usage".

Definition ICON : string := "mdi:flash".

(** Points in time and durations are counted in microseconds, the
    resolution of [datetime] and [timedelta]. *)
Definition timedelta (seconds : Z) : Z := seconds * 1000000.

Definition MIN_TIME_BETWEEN_DAILY_UPDATES : Z := timedelta 300.

Definition PRODUCTION_NAME : string := "Production".

(** Data structure holding sensor configuration. *)
Record SensorConfig := { name : string; sensor_type : string }.

(** Sensor types/ranges: a [dict], kept in insertion order. *)
Definition SENSOR_TYPES : list (string * SensorConfig) :=
  [ ("active", {| name := ACTIVE_NAME; sensor_type := ACTIVE_TYPE |});
    ("daily", {| name := "Daily"; sensor_type := "DAY" |});
    ("weekly", {| name := "Weekly"; sensor_type := "WEEK" |});
    ("monthly", {| name := "Monthly"; sensor_type := "MONTH" |});
    ("yearly", {| name := "Yearly"; sensor_type := "YEAR" |}) ].

(** [d[key]] and iteration over the keys of a [dict]. *)
Fixpoint dict_get {V} (d : list (string * V)) (key : string) : option V :=
  match d with
  | [] => None
  | (k, v) :: d' => if String.eqb k key then Some v else dict_get d' key
  end.

Definition dict_keys {V} (d : list (string * V)) : list string := map fst d.

(** Production/consumption variants. *)
Definition SENSOR_VARIANTS : list string :=
  [lower PRODUCTION_NAME; lower CONSUMPTION_NAME].

Section platform.

Context {num : Type} `{!Round num}.

(** [POWER_WATT] and [ENERGY_KILO_WATT_HOUR] are imported from
    [homeassistant.const], which is not part of the source tree. *)
Variables POWER_WATT ENERGY_KILO_WATT_HOUR : string.

(** *** The wrapped [sense_energy] client *)

(** What the platform reads from the client object [data]. *)
Record SenseData := {
  sense_monitor_id : string;
  active_power : num;
  active_solar_power : num;
  get_trend : string -> bool -> num
}.

(** What one request to the service does: the readings the client holds
    afterwards, and the exception it raises, if any. *)
Record response := {
  resp_data : SenseData;
  resp_exn : option exn
}.

(** The requests sent to the service, with the time of the request. *)
Inductive call :=
| RealtimeFetch (t : Z)
| TrendFetch (t : Z).

(** The objects shared by all the sensors of one config entry: the client,
    the time stamp kept by the [Throttle] around [update_trends], the
    requests sent so far (oldest first) and the records of [_LOGGER]. *)
Record World := {
  data : SenseData;
  throttle : option Z;
  calls : list call;
  log : list string
}.

Definition request (c : call) (resp : response) : M World unit :=
  Run (fun w =>
         (match resp_exn resp with
          | None => Normal tt
          | Some e => Raise e
          end,
          {| data := resp_data resp;
             throttle := throttle w;
             calls := list_append (calls w) c;
             log := log w |})).

(** [await data.update_realtime()] at time [now], answered by [resp]. *)
Definition update_realtime (now : Z) (resp : response) : M World unit :=
  request (RealtimeFetch now) resp.

(** [await data.update_trend_data()] at time [now], answered by [resp]. *)
Definition update_trend_data (now : Z) (resp : response) : M World unit :=
  request (TrendFetch now) resp.

Definition _LOGGER_error (msg : string) : M World unit :=
  modify (fun w =>
            {| data := data w;
               throttle := throttle w;
               calls := calls w;
               log := list_append (log w) msg |}).

(** Modelled from the spec: the decorator [homeassistant.util.Throttle] is
    missing from the source tree; the spec says the adapters
    "throttle/update on a timer".  The wrapped method runs when it never ran
    before or when more than [min_time] has passed since the time stamp of
    its last run; otherwise the call does nothing and yields [None].  The
    stamp is taken when the call is let through, before the coroutine is
    awaited. *)
Definition Throttle (min_time : Z) (method : M World unit) (now : Z)
  : M World unit :=
  w ← get;
  if match throttle w with
     | None => true
     | Some last => min_time <? now - last
     end
  then
    modify (fun w =>
              {| data := data w;
                 throttle := Some now;
                 calls := calls w;
                 log := log w |});;
    method
  else mret tt.

(** *** The closures of [async_setup_entry] *)

(** Update the daily power usage. *)
Definition update_trends (now : Z) (resp : response) : M World unit :=
  Throttle MIN_TIME_BETWEEN_DAILY_UPDATES (def (update_trend_data now resp)) now.

(** Update the active power usage. *)
Definition update_active (now : Z) (resp : response) : M World unit :=
  def (update_realtime now resp).

(** *** The entity *)

(** The state of a sensor: [None], an [int] or a reading. *)
Inductive value :=
| VInt (z : Z)
| VNum (x : num).

(** Implementation of a Sense energy sensor.  The attribute [_data] is a
    reference to the client shared through [World]. *)
Record Sense := {
  _name : string;
  _unique_id : string;
  _available : bool;
  _sensor_type : string;
  update_sensor : Z -> response -> M World unit;
  _is_production : bool;
  _state : option value;
  _unit_of_measurement : string
}.

(** Initialize the Sense sensor. *)
Definition Sense__init__ (name sensor_type : string) (is_production : bool)
    (update_call : Z -> response -> M World unit)
    (sensor_id unique_id : string) : Sense :=
  let name_type := if is_production then PRODUCTION_NAME else CONSUMPTION_NAME in
  {| _name := name +:+ " " +:+ name_type;
     _unique_id := unique_id;
     _available := false;
     _sensor_type := sensor_type;
     update_sensor := update_call;
     _is_production := is_production;
     _state := None;
     _unit_of_measurement :=
       if String.eqb sensor_type ACTIVE_TYPE then POWER_WATT
       else ENERGY_KILO_WATT_HOUR |}.

(** The properties of the entity. *)
Definition Sense_name (self : Sense) : string := _name self.
Definition Sense_state (self : Sense) : option value := _state self.
Definition Sense_available (self : Sense) : bool := _available self.
Definition Sense_unit_of_measurement (self : Sense) : string :=
  _unit_of_measurement self.
Definition Sense_icon (self : Sense) : string := ICON.
Definition Sense_unique_id (self : Sense) : string := _unique_id self.

(** [self._state = v] and [self._available = b]. *)
Definition set_state (v : value) : M Sense unit :=
  modify (fun self =>
            {| _name := _name self;
               _unique_id := _unique_id self;
               _available := _available self;
               _sensor_type := _sensor_type self;
               update_sensor := update_sensor self;
               _is_production := _is_production self;
               _state := Some v;
               _unit_of_measurement := _unit_of_measurement self |}).

Definition set_available (b : bool) : M Sense unit :=
  modify (fun self =>
            {| _name := _name self;
               _unique_id := _unique_id self;
               _available := b;
               _sensor_type := _sensor_type self;
               update_sensor := update_sensor self;
               _is_production := _is_production self;
               _state := _state self;
               _unit_of_measurement := _unit_of_measurement self |}).

(** Get the latest data, update state.  The store is the shared [World]
    paired with the sensor [self]; the call happens at time [now] and the
    service answers a request, if one is sent, with [resp]. *)
Definition async_update (now : Z) (resp : response) : M (World * Sense) unit :=
  def (
    try_except
      (self ← on_snd get;
       on_fst (update_sensor self now resp))
      is_SenseAPITimeoutException
      (on_fst (_LOGGER_error "Timeout retrieving data");;
       return_);;
    self ← on_snd get;
    w ← on_fst get;
    (if String.eqb (_sensor_type self) ACTIVE_TYPE then
       if _is_production self then
         on_snd (set_state (VInt (round (active_solar_power (data w)))))
       else
         on_snd (set_state (VInt (round (active_power (data w)))))
     else
       let state := get_trend (data w) (_sensor_type self) (_is_production self) in
       on_snd (set_state (VNum (round_ndigits state 1))));;
    on_snd (set_available true)).

(** Set up the Sense sensor: the list handed to [async_add_entities]. *)
Definition async_setup_entry (data : SenseData) : list Sense :=
  let sense_monitor_id := sense_monitor_id data in
  fold_left
    (fun devices type_id =>
       match dict_get SENSOR_TYPES type_id with
       | None => devices
       | Some typ =>
           fold_left
             (fun devices var =>
                let name := name typ in
                let sensor_type := sensor_type typ in
                let is_production := String.eqb var (lower PRODUCTION_NAME) in
                let update_call :=
                  if String.eqb sensor_type ACTIVE_TYPE then update_active
                  else update_trends in
                let unique_id :=
                  lower (sense_monitor_id +:+ "-" +:+ type_id +:+ "-" +:+ var) in
                list_append devices
                  (Sense__init__ name sensor_type is_production update_call
                     var unique_id))
             SENSOR_VARIANTS devices
       end)
    (dict_keys SENSOR_TYPES) [].

(** *** Polling *)

(** The world a config entry starts in. *)
Definition initial_world (data : SenseData) : World :=
  {| data := data; throttle := None; calls := []; log := [] |}.

(** One poll of the entity at index [i] by the host platform, which keeps
    polling whatever the outcome of [async_update] is. *)
Definition poll (st : World * list Sense) (p : nat * Z * response)
  : World * list Sense :=
  let '(i, now, resp) := p in
  match snd st !! i with
  | None => st
  | Some self =>
      let '(_, (w', self')) := run (async_update now resp) (fst st, self) in
      (w', <[i:=self']> (snd st))
  end.

Definition polls (ps : list (nat * Z * response)) (st : World * list Sense)
  : World * list Sense :=
  fold_left poll ps st.

(** Successive updates of one sensor. *)
Definition updates (ps : list (Z * response)) (st : World * Sense)
  : World * Sense :=
  fold_left (fun st p => snd (run (async_update (fst p) (snd p)) st)) ps st.

(** *** What one call leaves behind *)

(** The sensor after a refresh from the readings [d] of the client. *)
Definition refreshed (d : SenseData) (self : Sense) : Sense :=
  {| _name := _name self;
     _unique_id := _unique_id self;
     _available := true;
     _sensor_type := _sensor_type self;
     update_sensor := update_sensor self;
     _is_production := _is_production self;
     _state :=
       Some (if String.eqb (_sensor_type self) ACTIVE_TYPE then
               if _is_production self then VInt (round (active_solar_power d))
               else VInt (round (active_power d))
             else VNum (round_ndigits
                          (get_trend d (_sensor_type self) (_is_production self)) 1));
     _unit_of_measurement := _unit_of_measurement self |}.

(** The world after [_LOGGER.error(msg)]. *)
Definition logged (msg : string) (w : World) : World :=
  {| data := data w;
     throttle := throttle w;
     calls := calls w;
     log := list_append (log w) msg |}.

(** The world after the request [c] answered by [resp]. *)
Definition requested (c : call) (resp : response) (w : World) : World :=
  {| data := resp_data resp;
     throttle := throttle w;
     calls := list_append (calls w) c;
     log := log w |}.

(** Whether the throttle of [update_trends] lets a call at [now] through. *)
Definition lets_through (w : World) (now : Z) : bool :=
  match throttle w with
  | None => true
  | Some last => MIN_TIME_BETWEEN_DAILY_UPDATES <? now - last
  end.

(** How a request answered by [resp] completes. *)
Definition answer (resp : response) : completion unit :=
  match resp_exn resp with
  | None => Normal tt
  | Some e => Raise e
  end.

(** *** Relations between sensors, used to follow them through the polls *)

(** The attributes that [async_update] never assigns. *)
Definition same_identity (self self' : Sense) : Prop :=
  _name self' = _name self /\
  _unique_id self' = _unique_id self /\
  _sensor_type self' = _sensor_type self /\
  update_sensor self' = update_sensor self /\
  _is_production self' = _is_production self /\
  _unit_of_measurement self' = _unit_of_measurement self.

(** The update call [async_setup_entry] gives to a sensor of this type. *)
Definition wired (self : Sense) : Prop :=
  update_sensor self =
    if String.eqb (_sensor_type self) ACTIVE_TYPE then update_active
    else update_trends.

(** The unique ids after the monitor id, in the order of creation. *)
Definition unique_id_suffixes : list string :=
  [ "-active-production"; "-active-usage";
    "-daily-production"; "-daily-usage";
    "-weekly-production"; "-weekly-usage";
    "-monthly-production"; "-monthly-usage";
    "-yearly-production"; "-yearly-usage" ].

(** *** Reading the request log and the polls *)

(** The times of the realtime and of the trend requests of a log. *)
Definition realtime_times (cs : list call) : list Z :=
  omap (fun c => match c with
                 | RealtimeFetch t => Some t
                 | TrendFetch _ => None
                 end) cs.

Definition trend_times (cs : list call) : list Z :=
  omap (fun c => match c with
                 | RealtimeFetch _ => None
                 | TrendFetch t => Some t
                 end) cs.

(** Whether the entity at index [i] exists and has the type ["active"],
    or exists and has another type. *)
Definition is_active (devices : list Sense) (i : nat) : bool :=
  match devices !! i with
  | Some self => String.eqb (_sensor_type self) ACTIVE_TYPE
  | None => false
  end.

Definition is_trend (devices : list Sense) (i : nat) : bool :=
  match devices !! i with
  | Some self => negb (String.eqb (_sensor_type self) ACTIVE_TYPE)
  | None => false
  end.

(** The times at which the polls [ps] address an active entity. *)
Definition active_poll_times (devices : list Sense)
    (ps : list (nat * Z * response)) : list Z :=
  omap (fun p : nat * Z * response =>
          if is_active devices (fst (fst p)) then Some (snd (fst p)) else None)
       ps.

(** Whether the service answers with the timeout exception. *)
Definition timed_out (resp : response) : bool :=
  match resp_exn resp with
  | Some e => is_SenseAPITimeoutException e
  | None => false
  end.

(** How many of the polls [ps] the service answers with a timeout. *)
Definition timeouts (ps : list (nat * Z * response)) : nat :=
  length (List.filter (fun p : nat * Z * response => timed_out (snd p)) ps).

(** [t2] is more than [gap] after [t1]. *)
Definition more_than_apart (gap t1 t2 : Z) : Prop := gap < t2 - t1.

(** The world after the throttle took the stamp [now]. *)
Definition stamped (now : Z) (w : World) : World :=
  {| data := data w; throttle := Some now; calls := calls w; log := log w |}.

(** The world after [async_update] sent the request [c]: the request is
    recorded, and a timeout is logged. *)
Definition after_request (c : call) (resp : response) (w : World) : World :=
  if timed_out resp
  then logged "Timeout retrieving data" (requested c resp w)
  else requested c resp w.

(** Whether [async_update] of a sensor built by [async_setup_entry] sends a
    request at [now]. *)
Definition sends (self : Sense) (w : World) (now : Z) : bool :=
  String.eqb (_sensor_type self) ACTIVE_TYPE || lets_through w now.

End platform.

Arguments SenseData num : clear implicits.
Arguments response num : clear implicits.
Arguments World num : clear implicits.
Arguments value num : clear implicits.
Arguments Sense num : clear implicits.

End sense.

(** ** The Reddit sensor platform
    (exercised by [tests/components/reddit/test_sensor.py]) *)

Module reddit.

(** Python values carried by the fields of a submission. *)
Inductive pyval :=
| PyNone
| PyInt (z : Z)
| PyStr (s : string).

(** *** The wrapped [praw] client *)

(** A submission of the wrapped library: the seven fields the platform
    reads, and whatever else the object carries. *)
Record Submission := {
  id : pyval;
  url : pyval;
  title : pyval;
  score : pyval;
  num_comments : pyval;
  created : pyval;
  selftext : pyval;
  other_fields : list (string * pyval)
}.

(** A subreddit instance: one listing method per sort mode, each taking the
    result limit. *)
Record Subreddit := {
  top : nat -> list Submission;
  controversial : nat -> list Submission;
  hot : nat -> list Submission;
  new : nat -> list Submission
}.

(** The client: [reddit.subreddit(name)]. *)
Definition Reddit : Type := string -> Subreddit.

(** *** The platform *)

(** Modelled from the spec: the module [homeassistant/components/reddit/sensor.py]
    is missing from the source tree.  The recognized sort modes are the
    listing methods of a subreddit. *)
Definition LIST_TYPES : list string := ["top"; "controversial"; "hot"; "new"].

(** [getattr(subreddit, sort_by)], guarded by [hasattr]. *)
Definition method_to_call (subreddit : Subreddit) (sort_by : string)
  : option (nat -> list Submission) :=
  if String.eqb sort_by "top" then Some (top subreddit)
  else if String.eqb sort_by "controversial" then Some (controversial subreddit)
  else if String.eqb sort_by "hot" then Some (hot subreddit)
  else if String.eqb sort_by "new" then Some (new subreddit)
  else None.

(** The platform configuration as written by the user: the sort mode and
    the result limit are optional. *)
Record Config := {
  platform : string;
  CONF_CLIENT_ID : string;
  CONF_CLIENT_SECRET : string;
  CONF_USERNAME : string;
  CONF_PASSWORD : string;
  subreddits : list string;
  sort_by : option string;
  CONF_MAXIMUM : option nat
}.

(** The configuration after validation, with the defaults filled in. *)
Record ValidatedConfig := {
  conf_subreddits : list string;
  conf_sort_by : string;
  conf_maximum : nat
}.

Definition DEFAULT_SORT_BY : string := "hot".
Definition DEFAULT_MAXIMUM : nat := 10.

(** Modelled from the spec: the configuration validity check of the missing
    platform module, "rejecting an unrecognized sort-order string"; a sort
    mode that is not configured defaults to ["hot"]. *)
Definition PLATFORM_SCHEMA (config : Config) : option ValidatedConfig :=
  let sort_by := default DEFAULT_SORT_BY (sort_by config) in
  if existsb (String.eqb sort_by) LIST_TYPES then
    Some {| conf_subreddits := subreddits config;
            conf_sort_by := sort_by;
            conf_maximum := default DEFAULT_MAXIMUM (CONF_MAXIMUM config) |}
  else None.

(** Modelled from the spec: "A Post has an id, url, title, score, comment
    count, creation timestamp, and body text"; the fields are named after
    the attribute keys the test imports from the missing platform module. *)
Record Post := {
  ATTR_ID : pyval;
  ATTR_URL : pyval;
  ATTR_TITLE : pyval;
  ATTR_SCORE : pyval;
  ATTR_COMMENTS_NUMBER : pyval;
  ATTR_CREATED : pyval;
  ATTR_BODY : pyval
}.

(** Modelled from the spec: a post is "read-only data copied from the
    wrapped library's response", field by field. *)
Definition post_of_submission (submission : Submission) : Post :=
  {| ATTR_ID := id submission;
     ATTR_URL := url submission;
     ATTR_TITLE := title submission;
     ATTR_SCORE := score submission;
     ATTR_COMMENTS_NUMBER := num_comments submission;
     ATTR_CREATED := created submission;
     ATTR_BODY := selftext submission |}.

(** Modelled from the spec: the entity of the missing platform module, one
    per configured subreddit, holding the posts of the last poll. *)
Record RedditSensor := {
  _subreddit : string;
  _limit : nat;
  _sort_by : string;
  _subreddit_data : list Post
}.

(** The attributes of an entity as the state machine shows them. *)
Record Attributes := {
  ATTR_SUBREDDIT : string;
  ATTR_POSTS : list Post;
  CONF_SORT_BY : string
}.

Record State := {
  state : nat;
  attributes : Attributes
}.

(** Modelled from the spec: the name, state and attributes of the entity of
    the missing platform module, as the test reads them: the entity
    [reddit_<subreddit>], whose state is the number of posts. *)
Definition RedditSensor_name (self : RedditSensor) : string :=
  "reddit_" +:+ _subreddit self.

Definition RedditSensor_state (self : RedditSensor) : nat :=
  length (_subreddit_data self).

Definition device_state_attributes (self : RedditSensor) : Attributes :=
  {| ATTR_SUBREDDIT := _subreddit self;
     ATTR_POSTS := _subreddit_data self;
     CONF_SORT_BY := _sort_by self |}.

(** Modelled from the spec: one poll of the missing platform module, which
    asks the wrapped library for the posts of the subreddit in the
    configured sort mode and copies each of them. *)
Definition update (reddit : Reddit) (self : RedditSensor) : RedditSensor :=
  let subreddit := reddit (_subreddit self) in
  {| _subreddit := _subreddit self;
     _limit := _limit self;
     _sort_by := _sort_by self;
     _subreddit_data :=
       match method_to_call subreddit (_sort_by self) with
       | Some method => map post_of_submission (method (_limit self))
       | None => []
       end |}.

(** Modelled from the spec: platform setup of the missing module, which
    creates one entity per configured subreddit. *)
Definition setup_platform (config : ValidatedConfig) : list RedditSensor :=
  map (fun subreddit =>
         {| _subreddit := subreddit;
            _limit := conf_maximum config;
            _sort_by := conf_sort_by config;
            _subreddit_data := [] |})
      (conf_subreddits config).

(** Modelled from the spec: [setup_component(hass, "sensor", config)] on the
    states of the host platform.  A configuration that fails validation
    creates no entity; otherwise each entity is polled once and written to
    the state machine under [sensor.<name>]. *)
Definition setup_component (reddit : Reddit) (config : Config)
    (states : gmap string State) : gmap string State :=
  match PLATFORM_SCHEMA config with
  | None => states
  | Some conf =>
      fold_left
        (fun states sensor =>
           let sensor := update reddit sensor in
           <[ "sensor." +:+ RedditSensor_name sensor :=
                {| state := RedditSensor_state sensor;
                   attributes := device_state_attributes sensor |} ]> states)
        (setup_platform conf) states
  end.

(** *** The fixtures of the test module *)

Definition DOMAIN : string := "reddit".

Definition VALID_CONFIG : Config :=
  {| platform := DOMAIN;
     CONF_CLIENT_ID := "test_client_id";
     CONF_CLIENT_SECRET := "test_client_secret";
     CONF_USERNAME := "test_username";
     CONF_PASSWORD := "test_password";
     subreddits := ["worldnews"; "news"];
     sort_by := None;
     CONF_MAXIMUM := None |}.

Definition VALID_LIMITED_CONFIG : Config :=
  {| platform := DOMAIN;
     CONF_CLIENT_ID := "test_client_id";
     CONF_CLIENT_SECRET := "test_client_secret";
     CONF_USERNAME := "test_username";
     CONF_PASSWORD := "test_password";
     subreddits := ["worldnews"; "news"];
     sort_by := None;
     CONF_MAXIMUM := Some 1%nat |}.

Definition INVALID_SORT_BY_CONFIG : Config :=
  {| platform := DOMAIN;
     CONF_CLIENT_ID := "test_client_id";
     CONF_CLIENT_SECRET := "test_client_secret";
     CONF_USERNAME := "test_username";
     CONF_PASSWORD := "test_password";
     subreddits := ["worldnews"; "news"];
     sort_by := Some "invalid_sort_by";
     CONF_MAXIMUM := None |}.

Definition MOCK_RESULTS : list Submission :=
  [ {| id := PyInt 0;
       url := PyStr "http://example.com/1";
       title := PyStr "example1";
       score := PyStr "1";
       num_comments := PyStr "1";
       created := PyStr "";
       selftext := PyStr "example1 selftext";
       other_fields := [] |};
    {| id := PyInt 1;
       url := PyStr "http://example.com/2";
       title := PyStr "example2";
       score := PyStr "2";
       num_comments := PyStr "2";
       created := PyStr "";
       selftext := PyStr "example2 selftext";
       other_fields := [] |} ].

Definition MOCK_RESULTS_LENGTH : nat := length MOCK_RESULTS.

(** Mock class for a subreddit instance: every listing returns the first
    [limit] mock results. *)
Definition _return_data (data : list Submission) (limit : nat) : list Submission :=
  take limit data.

Definition MockSubreddit (subreddit : string) (data : list Submission) : Subreddit :=
  {| top := _return_data data;
     controversial := _return_data data;
     hot := _return_data data;
     new := _return_data data |}.

(** Mock class for Reddit library. *)
Definition MockPraw : Reddit :=
  fun subreddit => MockSubreddit subreddit MOCK_RESULTS.

End reddit.

(** ** Sample inputs *)

Module samples.

Import sense.

(** A client holding 512.5 W of consumption, 3.5 W of solar production and
    12.25 kWh for every trend. *)
Definition readings : SenseData fixed3 :=
  {| sense_monitor_id := "ABC12";
     active_power := Fixed3 512500;
     active_solar_power := Fixed3 3500;
     get_trend := fun _ _ => Fixed3 12250 |}.

Definition ok : response fixed3 := {| resp_data := readings; resp_exn := None |}.

Definition timeout : response fixed3 :=
  {| resp_data := readings; resp_exn := Some SenseAPITimeoutException |}.

Definition auth_failure : response fixed3 :=
  {| resp_data := readings;
     resp_exn := Some (OtherException "SenseAuthenticationException") |}.

(** The entities of a config entry, with the units ["W"] and ["kWh"]. *)
Definition devices : list (Sense fixed3) := async_setup_entry "W" "kWh" readings.

Definition active_usage : Sense fixed3 :=
  Sense__init__ "W" "kWh" ACTIVE_NAME ACTIVE_TYPE false update_active
    "usage" "abc12-active-usage".

Definition daily_production : Sense fixed3 :=
  Sense__init__ "W" "kWh" "Daily" "DAY" true update_trends
    "production" "abc12-daily-production".

Definition daily_usage : Sense fixed3 :=
  Sense__init__ "W" "kWh" "Daily" "DAY" false update_trends
    "usage" "abc12-daily-usage".

(** The same monitor, with its id written in lower case, and new readings. *)
Definition readings_later : SenseData fixed3 :=
  {| sense_monitor_id := "abc12";
     active_power := Fixed3 498000;
     active_solar_power := Fixed3 0;
     get_trend := fun _ _ => Fixed3 13750 |}.

Definition later : response fixed3 :=
  {| resp_data := readings_later; resp_exn := None |}.

End samples.

(** ** Properties of the Sense platform *)

Section sense_properties.

Import sense.

Context {num : Type} `{!Round num}.

Variables POWER_WATT ENERGY_KILO_WATT_HOUR : string.

Implicit Types (self : Sense num) (w : World num) (resp : response num) (now : Z).

(** *** One call of [async_update] *)

Lemma run_async_update now resp w self :
  run (async_update now resp) (w, self) =
  match run (update_sensor self now resp) w with
  | (Normal _, w') => (Normal tt, (w', refreshed (data w') self))
  | (Return_, w') => (Normal tt, (w', self))
  | (Raise e, w') =>
      if is_SenseAPITimeoutException e
      then (Normal tt, (logged "Timeout retrieving data" w', self))
      else (Raise e, (w', self))
  end.
Proof.
  unfold async_update, def, try_except, on_fst, on_snd, mbind, M_bind, get,
    set_state, set_available, modify, return_, _LOGGER_error, refreshed, logged.
  simpl.
  destruct (run (update_sensor self now resp) w) as [[a | | e] w']; simpl.
  - destruct (String.eqb (_sensor_type self) ACTIVE_TYPE) eqn:Ht;
      [destruct (_is_production self) eqn:Hp |]; simpl; rewrite ?Hp;
      reflexivity.
  - reflexivity.
  - destruct (is_SenseAPITimeoutException e); reflexivity.
Qed.

Lemma is_SenseAPITimeoutException_false e :
  e <> SenseAPITimeoutException -> is_SenseAPITimeoutException e = false.
Proof. destruct e; [congruence | reflexivity]. Qed.

Lemma same_identity_refl self : same_identity self self.
Proof. repeat split. Qed.

Lemma same_identity_trans self1 self2 self3 :
  same_identity self1 self2 -> same_identity self2 self3 ->
  same_identity self1 self3.
Proof.
  unfold same_identity. intros (? & ? & ? & ? & ? & ?) (? & ? & ? & ? & ? & ?).
  repeat split; congruence.
Qed.

Lemma async_update_same_identity now resp w self :
  same_identity self (snd (snd (run (async_update now resp) (w, self)))).
Proof.
  rewrite run_async_update.
  destruct (run (update_sensor self now resp) w) as [[a | | e] w'];
    [| | destruct (is_SenseAPITimeoutException e)]; simpl;
    repeat split.
Qed.

Lemma async_update_available now resp w self :
  _available self = true ->
  _available (snd (snd (run (async_update now resp) (w, self)))) = true.
Proof.
  intros Ha. rewrite run_async_update.
  destruct (run (update_sensor self now resp) w) as [[a | | e] w'];
    [| | destruct (is_SenseAPITimeoutException e)]; simpl; auto.
Qed.

(** *** Successive updates of one sensor *)

Lemma updates_app ps1 ps2 (st : World num * Sense num) :
  updates (ps1 ++ ps2) st = updates ps2 (updates ps1 st).
Proof. unfold updates. apply fold_left_app. Qed.

Lemma updates_same_identity ps w self :
  same_identity self (snd (updates ps (w, self))).
Proof.
  revert w self. induction ps as [| [now resp] ps IH]; intros w self.
  - apply same_identity_refl.
  - change (updates ((now, resp) :: ps) (w, self))
      with (updates ps (snd (run (async_update now resp) (w, self)))).
    pose proof (async_update_same_identity now resp w self) as H1.
    destruct (run (async_update now resp) (w, self)) as [r [w1 self1]].
    simpl in *. eapply same_identity_trans; [exact H1 | apply IH].
Qed.

Lemma updates_available ps w self :
  _available self = true -> _available (snd (updates ps (w, self))) = true.
Proof.
  revert w self. induction ps as [| [now resp] ps IH]; intros w self Ha.
  - exact Ha.
  - change (updates ((now, resp) :: ps) (w, self))
      with (updates ps (snd (run (async_update now resp) (w, self)))).
    pose proof (async_update_available now resp w self Ha) as H1.
    destruct (run (async_update now resp) (w, self)) as [r [w1 self1]].
    simpl in *. apply IH, H1.
Qed.

(** C1: when the update call of a sensor raises [SenseAPITimeoutException],
    [async_update] logs the error and returns normally, and the sensor is
    as it was before the call: same state, same availability flag. *)
Theorem async_update_timeout_keeps_state now resp w w' self :
  run (update_sensor self now resp) w = (Raise SenseAPITimeoutException, w') ->
  let '(r, (w1, self1)) := run (async_update now resp) (w, self) in
  r = Normal tt /\
  log w1 = list_append (log w') "Timeout retrieving data" /\
  Sense_state self1 = Sense_state self /\
  Sense_available self1 = Sense_available self /\
  self1 = self.
Proof.
  intros Hcall. rewrite run_async_update, Hcall. simpl. repeat split.
Qed.

(** C4: a sensor has a name, a unit of measurement, an availability flag and
    a state; when the update call completes without raising, [async_update]
    leaves the state equal to the reading the client then holds (the solar
    or the consumption power rounded to an integer for an active sensor,
    the trend rounded to one decimal otherwise) and the flag set. *)
Theorem async_update_refreshes_state now resp w w' self :
  run (update_sensor self now resp) w = (Normal tt, w') ->
  let '(r, (w1, self1)) := run (async_update now resp) (w, self) in
  r = Normal tt /\
  w1 = w' /\
  Sense_state self1 =
    Some (if String.eqb (_sensor_type self) ACTIVE_TYPE then
            if _is_production self
            then VInt (round (active_solar_power (data w')))
            else VInt (round (active_power (data w')))
          else
            VNum (round_ndigits
                    (get_trend (data w') (_sensor_type self)
                       (_is_production self)) 1)) /\
  Sense_available self1 = true /\
  Sense_name self1 = Sense_name self /\
  Sense_unit_of_measurement self1 = Sense_unit_of_measurement self.
Proof.
  intros Hcall. rewrite run_async_update, Hcall. simpl. repeat split.
Qed.

(** C5: an exception of the update call other than
    [SenseAPITimeoutException] is not caught: [async_update] raises it, logs
    nothing and leaves the sensor untouched. *)
Theorem async_update_propagates_other_exceptions now resp w w' self e :
  e <> SenseAPITimeoutException ->
  run (update_sensor self now resp) w = (Raise e, w') ->
  run (async_update now resp) (w, self) = (Raise e, (w', self)).
Proof.
  intros Hne Hcall.
  rewrite run_async_update, Hcall, is_SenseAPITimeoutException_false by exact Hne.
  reflexivity.
Qed.

(** C8: the unit of measurement is fixed by [__init__] from the sensor type
    alone, [POWER_WATT] exactly for the type ["active"] and
    [ENERGY_KILO_WATT_HOUR] otherwise, and no sequence of updates changes the
    unit, the name or the unique id. *)
Theorem unit_name_and_unique_id_are_fixed :
  POWER_WATT <> ENERGY_KILO_WATT_HOUR ->
  (forall name sensor_type is_production
          (update_call : Z -> response num -> M (World num) unit)
          sensor_id unique_id,
     let self :=
       Sense__init__ POWER_WATT ENERGY_KILO_WATT_HOUR name sensor_type
         is_production update_call sensor_id unique_id in
     Sense_unit_of_measurement self =
       (if String.eqb sensor_type ACTIVE_TYPE then POWER_WATT
        else ENERGY_KILO_WATT_HOUR) /\
     (Sense_unit_of_measurement self = POWER_WATT <-> sensor_type = ACTIVE_TYPE) /\
     (Sense_unit_of_measurement self = ENERGY_KILO_WATT_HOUR <->
      sensor_type <> ACTIVE_TYPE)) /\
  (forall ps w self,
     let self' := snd (updates ps (w, self)) in
     Sense_unit_of_measurement self' = Sense_unit_of_measurement self /\
     Sense_name self' = Sense_name self /\
     Sense_unique_id self' = Sense_unique_id self).
Proof.
  intros Hunits. split.
  - intros name sensor_type is_production update_call sensor_id unique_id.
    unfold Sense_unit_of_measurement. simpl.
    destruct (String.eqb_spec sensor_type ACTIVE_TYPE) as [Heq | Hneq].
    + repeat split; congruence.
    + repeat split; congruence.
  - intros ps w self.
    destruct (updates_same_identity ps w self) as (Hn & Hi & _ & _ & _ & Hu).
    repeat split; assumption.
Qed.

(** C10: a sensor starts unavailable and without a state; an update whose
    call completes without raising sets the flag, a timeout leaves it as it
    is, and once set the flag stays set through every later update. *)
Theorem availability_is_monotone :
  (forall name sensor_type is_production
          (update_call : Z -> response num -> M (World num) unit)
          sensor_id unique_id,
     let self :=
       Sense__init__ POWER_WATT ENERGY_KILO_WATT_HOUR name sensor_type
         is_production update_call sensor_id unique_id in
     Sense_available self = false /\ Sense_state self = None) /\
  (forall now resp w w' self,
     run (update_sensor self now resp) w = (Raise SenseAPITimeoutException, w') ->
     Sense_available (snd (snd (run (async_update now resp) (w, self)))) =
       Sense_available self) /\
  (forall ps w self,
     Sense_available self = true ->
     Sense_available (snd (updates ps (w, self))) = true) /\
  (forall ps1 now resp ps2 w w' self,
     run (update_sensor (snd (updates ps1 (w, self))) now resp)
       (fst (updates ps1 (w, self))) = (Normal tt, w') ->
     Sense_available
       (snd (updates (ps1 ++ (now, resp) :: ps2) (w, self))) = true).
Proof.
  repeat split.
  - intros now resp w w' self Hcall.
    rewrite run_async_update, Hcall. reflexivity.
  - intros ps w self. apply updates_available.
  - intros ps1 now resp ps2 w w' self Hcall.
    rewrite updates_app.
    destruct (updates ps1 (w, self)) as [w1 self1]. simpl in Hcall.
    change (updates ((now, resp) :: ps2) (w1, self1))
      with (updates ps2 (snd (run (async_update now resp) (w1, self1)))).
    rewrite run_async_update, Hcall. simpl.
    apply updates_available. reflexivity.
Qed.

(** *** The entities built by [async_setup_entry] *)

Lemma lower_app (s1 s2 : string) : lower (s1 +:+ s2) = lower s1 +:+ lower s2.
Proof.
  induction s1 as [| c s1 IH].
  - reflexivity.
  - change (String c s1 +:+ s2) with (String c (s1 +:+ s2)).
    change (lower (String c s1) +:+ lower s2)
      with (String (lower_ascii c) (lower s1 +:+ lower s2)).
    simpl. rewrite IH. reflexivity.
Qed.

Lemma async_setup_entry_unique_ids (d : SenseData num) :
  map Sense_unique_id (async_setup_entry POWER_WATT ENERGY_KILO_WATT_HOUR d) =
  (fun suffix => lower (sense_monitor_id d) +:+ suffix) <$> unique_id_suffixes.
Proof.
  unfold async_setup_entry, Sense_unique_id. simpl.
  rewrite !lower_app. reflexivity.
Qed.

(** C9: [async_setup_entry] creates exactly ten sensors, one for each of the
    five sensor types paired with each of the two variants, in that order,
    and their unique ids, the lowercased ["{monitor_id}-{type_id}-{variant}"],
    are pairwise distinct. *)
Theorem async_setup_entry_creates_ten_sensors (d : SenseData num) :
  let devices := async_setup_entry POWER_WATT ENERGY_KILO_WATT_HOUR d in
  length devices = 10%nat /\
  map Sense_unique_id devices =
    flat_map
      (fun type_id =>
         map (fun var =>
                lower (sense_monitor_id d +:+ "-" +:+ type_id +:+ "-" +:+ var))
           ["production"; "usage"])
      ["active"; "daily"; "weekly"; "monthly"; "yearly"] /\
  map (fun self => (Sense_name self, _sensor_type self, _is_production self))
    devices =
    [ ("Energy Production", "active", true); ("Energy Usage", "active", false);
      ("Daily Production", "DAY", true); ("Daily Usage", "DAY", false);
      ("Weekly Production", "WEEK", true); ("Weekly Usage", "WEEK", false);
      ("Monthly Production", "MONTH", true); ("Monthly Usage", "MONTH", false);
      ("Yearly Production", "YEAR", true); ("Yearly Usage", "YEAR", false) ] /\
  NoDup (map Sense_unique_id devices).
Proof.
  intros devices. subst devices. split; [reflexivity |].
  split; [reflexivity |]. split; [reflexivity |].
  rewrite async_setup_entry_unique_ids.
  apply (NoDup_fmap_2 _).
  apply (bool_decide_unpack _). vm_compute. reflexivity.
Qed.

(** *** The two update calls *)

Lemma run_update_active now resp w :
  run (update_active now resp) w =
  (answer resp, requested (RealtimeFetch now) resp w).
Proof.
  unfold update_active, update_realtime, request, def, answer, requested.
  simpl. destruct (resp_exn resp); reflexivity.
Qed.

Lemma run_update_trends now resp w :
  run (update_trends now resp) w =
  if lets_through w now then
    (answer resp,
     requested (TrendFetch now) resp
       {| data := data w; throttle := Some now;
          calls := calls w; log := log w |})
  else (Normal tt, w).
Proof.
  unfold update_trends, Throttle, update_trend_data, request, def, answer,
    requested, lets_through, mbind, M_bind, mret, M_ret, get, modify.
  simpl.
  destruct (throttle w) as [last |]; simpl;
    [destruct (MIN_TIME_BETWEEN_DAILY_UPDATES <? now - last); simpl |];
    try reflexivity; destruct (resp_exn resp); reflexivity.
Qed.

(** The requests and the time stamp after [async_update] on an active
    sensor: one realtime request more, whatever the answer. *)
Lemma async_update_active_world now resp w self :
  update_sensor self = update_active ->
  let w1 := fst (snd (run (async_update now resp) (w, self))) in
  calls w1 = list_append (calls w) (RealtimeFetch now) /\
  throttle w1 = throttle w.
Proof.
  intros Hcall. rewrite run_async_update, Hcall, run_update_active.
  unfold answer. destruct (resp_exn resp) as [e |]; simpl;
    [destruct (is_SenseAPITimeoutException e) |]; simpl; split; reflexivity.
Qed.

(** The same after [async_update] on a trend sensor: one trend request more
    and a new time stamp when the throttle lets the call through, nothing
    otherwise. *)
Lemma async_update_trend_world now resp w self :
  update_sensor self = update_trends ->
  let w1 := fst (snd (run (async_update now resp) (w, self))) in
  if lets_through w now then
    calls w1 = list_append (calls w) (TrendFetch now) /\
    throttle w1 = Some now
  else calls w1 = calls w /\ throttle w1 = throttle w.
Proof.
  intros Hcall. rewrite run_async_update, Hcall, run_update_trends.
  destruct (lets_through w now).
  - unfold answer. destruct (resp_exn resp) as [e |]; simpl;
      [destruct (is_SenseAPITimeoutException e) |]; simpl; split; reflexivity.
  - simpl. split; reflexivity.
Qed.

(** *** The entities of a config entry through the polls *)

Lemma async_setup_entry_wired (d : SenseData num) :
  Forall wired (async_setup_entry POWER_WATT ENERGY_KILO_WATT_HOUR d).
Proof. repeat constructor. Qed.

Lemma wired_same_identity self self' :
  same_identity self self' -> wired self -> wired self'.
Proof.
  unfold wired. intros (_ & _ & Ht & Hu & _ & _) Hw. rewrite Hu, Ht. exact Hw.
Qed.

Lemma poll_same_identity (l : list (Sense num)) w l' p :
  Forall2 same_identity l l' ->
  Forall2 same_identity l (snd (poll (w, l') p)).
Proof.
  intros Hl. destruct p as [[i now] resp]. unfold poll. cbn [fst snd].
  destruct (l' !! i) as [self |] eqn:Hi; [| exact Hl].
  pose proof (async_update_same_identity now resp w self) as Hs.
  destruct (run (async_update now resp) (w, self)) as [r [w1 self1]].
  simpl in *.
  destruct (Forall2_lookup_r _ _ _ _ _ Hl Hi) as (self0 & Hi0 & H0).
  rewrite <- (list_insert_id l i self0 Hi0).
  apply Forall2_insert; [exact Hl |].
  eapply same_identity_trans; eassumption.
Qed.

Lemma polls_same_identity (l : list (Sense num)) ps w l' :
  Forall2 same_identity l l' ->
  Forall2 same_identity l (snd (polls ps (w, l'))).
Proof.
  revert w l'. induction ps as [| p ps IH]; intros w l' Hl; [exact Hl |].
  change (polls (p :: ps) (w, l')) with (polls ps (poll (w, l') p)).
  pose proof (poll_same_identity l w l' p Hl) as Hp.
  destruct (poll (w, l') p) as [w1 l1]. apply IH, Hp.
Qed.

(** A poll of a sensor wired to [update_active] sends a realtime request. *)
Lemma poll_active w (l : list (Sense num)) i now resp self :
  l !! i = Some self -> update_sensor self = update_active ->
  calls (fst (poll (w, l) (i, now, resp))) =
    list_append (calls w) (RealtimeFetch now).
Proof.
  intros Hi Hcall. unfold poll. cbn [fst snd]. rewrite Hi.
  pose proof (async_update_active_world now resp w self Hcall) as Hw.
  destruct (run (async_update now resp) (w, self)) as [r [w1 self1]].
  simpl in *. apply Hw.
Qed.

(** A poll of a sensor wired to [update_trends] sends a trend request
    exactly when the throttle lets the call through. *)
Lemma poll_trend w (l : list (Sense num)) i now resp self :
  l !! i = Some self -> update_sensor self = update_trends ->
  let w1 := fst (poll (w, l) (i, now, resp)) in
  if lets_through w now then
    calls w1 = list_append (calls w) (TrendFetch now) /\
    throttle w1 = Some now
  else calls w1 = calls w /\ throttle w1 = throttle w.
Proof.
  intros Hi Hcall. unfold poll. cbn [fst snd]. rewrite Hi.
  pose proof (async_update_trend_world now resp w self Hcall) as Hw.
  destruct (run (async_update now resp) (w, self)) as [r [w1 self1]].
  simpl in *. exact Hw.
Qed.

(** The time stamp of the throttle never moves back. *)
Lemma poll_throttle_le w (l : list (Sense num)) p t0 t :
  Forall wired l -> throttle w = Some t -> t0 <= t ->
  exists t', throttle (fst (poll (w, l) p)) = Some t' /\ t0 <= t'.
Proof.
  intros Hl Ht Hle. destruct p as [[i now] resp].
  destruct (l !! i) as [self |] eqn:Hi.
  - pose proof (proj1 (Forall_lookup wired l) Hl i self Hi) as Hw.
    unfold wired in Hw.
    destruct (String.eqb (_sensor_type self) ACTIVE_TYPE).
    + unfold poll. cbn [fst snd]. rewrite Hi.
      pose proof (async_update_active_world now resp w self Hw) as [_ Hth].
      destruct (run (async_update now resp) (w, self)) as [r [w1 self1]].
      simpl in *. exists t. rewrite Hth. auto.
    + pose proof (poll_trend w l i now resp self Hi Hw) as Hp. cbv zeta in Hp.
      destruct (lets_through w now) eqn:Hlet.
      * destruct Hp as [_ Hth]. exists now. split; [exact Hth |].
        unfold lets_through in Hlet. rewrite Ht in Hlet.
        apply Z.ltb_lt in Hlet.
        unfold MIN_TIME_BETWEEN_DAILY_UPDATES, timedelta in Hlet. lia.
      * destruct Hp as [_ Hth]. exists t. rewrite Hth. auto.
  - unfold poll. cbn [fst snd]. rewrite Hi. simpl. eauto.
Qed.

Lemma polls_throttle_le (l0 l : list (Sense num)) ps w t0 t :
  Forall wired l0 -> Forall2 same_identity l0 l ->
  throttle w = Some t -> t0 <= t ->
  exists t', throttle (fst (polls ps (w, l))) = Some t' /\ t0 <= t'.
Proof.
  intros Hw0. revert w l t.
  induction ps as [| p ps IH]; intros w l t Hl Ht Hle; [simpl; eauto |].
  change (polls (p :: ps) (w, l)) with (polls ps (poll (w, l) p)).
  assert (Forall wired l) as Hwl.
  { apply Forall_lookup. intros i self Hi.
    destruct (Forall2_lookup_r _ _ _ _ _ Hl Hi) as (self0 & Hi0 & H0).
    eapply wired_same_identity; [exact H0 |].
    exact (proj1 (Forall_lookup wired l0) Hw0 i self0 Hi0). }
  destruct (poll_throttle_le w l p t0 t Hwl Ht Hle) as (t1 & Ht1 & Hle1).
  pose proof (poll_same_identity l0 w l p Hl) as Hp.
  destruct (poll (w, l) p) as [w1 l1]. simpl in *.
  eapply IH; eassumption.
Qed.

Lemma same_identity_diag (l : list (Sense num)) : Forall2 same_identity l l.
Proof. induction l; constructor; auto using same_identity_refl. Qed.

(** The update call of the sensor at an index, at any point of the polls. *)
Lemma polled_sensor_call (d : SenseData num) ps i self0 :
  let devices := async_setup_entry POWER_WATT ENERGY_KILO_WATT_HOUR d in
  devices !! i = Some self0 ->
  exists self,
    snd (polls ps (initial_world d, devices)) !! i = Some self /\
    update_sensor self =
      if String.eqb (_sensor_type self0) ACTIVE_TYPE then update_active
      else update_trends.
Proof.
  intros devices Hi.
  pose proof (polls_same_identity devices ps (initial_world d) devices
                (same_identity_diag devices)) as Hl.
  destruct (Forall2_lookup_l _ _ _ _ _ Hl Hi) as (self & Hs & Hid).
  exists self. split; [exact Hs |].
  pose proof (proj1 (Forall_lookup wired devices)
                (async_setup_entry_wired d) i self0 Hi) as Hw.
  destruct Hid as (_ & _ & _ & Hu & _ & _). rewrite Hu. exact Hw.
Qed.

(** C7: the trend sensors share one throttled update call: when a poll of a
    trend sensor has sent the trend request, no poll of a trend sensor less
    than 300 seconds later sends another one, whatever happens in between;
    a poll of an active sensor always sends the realtime request. *)
Theorem trend_updates_are_throttled (d : SenseData num)
    ps1 ps2 i j now1 now2 r1 r2 self_i self_j :
  let devices := async_setup_entry POWER_WATT ENERGY_KILO_WATT_HOUR d in
  let st1 := polls ps1 (initial_world d, devices) in
  let st1' := poll st1 (i, now1, r1) in
  let st2 := polls ps2 st1' in
  let st2' := poll st2 (j, now2, r2) in
  devices !! i = Some self_i ->
  devices !! j = Some self_j ->
  (_sensor_type self_i <> ACTIVE_TYPE ->
   _sensor_type self_j <> ACTIVE_TYPE ->
   calls (fst st1') = list_append (calls (fst st1)) (TrendFetch now1) ->
   now2 - now1 < timedelta 300 ->
   calls (fst st2') = calls (fst st2)) /\
  (_sensor_type self_i = ACTIVE_TYPE ->
   calls (fst st1') = list_append (calls (fst st1)) (RealtimeFetch now1)).
Proof.
  intros devices st1 st1' st2 st2' Hi Hj.
  destruct (polled_sensor_call d ps1 i self_i Hi) as (s1 & Hs1 & Hc1).
  fold devices in Hs1. fold st1 in Hs1.
  split.
  - intros Hti Htj Hfetch Hlt.
    apply String.eqb_neq in Hti, Htj. rewrite Hti in Hc1.
    (* the first poll went through the throttle *)
    assert (throttle (fst st1') = Some now1) as Hth.
    { subst st1'. destruct st1 as [w1 l1]. simpl in Hs1.
      pose proof (poll_trend w1 l1 i now1 r1 s1 Hs1 Hc1) as Hp.
      cbv zeta in Hp. cbn [fst] in Hfetch.
      destruct (lets_through w1 now1); [tauto |].
      destruct Hp as [Hp _]. rewrite Hp in Hfetch.
      apply (f_equal length) in Hfetch.
      unfold list_append in Hfetch. rewrite length_app in Hfetch.
      simpl in Hfetch. lia. }
    (* the stamp is not older at the second poll *)
    destruct (polled_sensor_call d (ps1 ++ (i, now1, r1) :: ps2) j self_j Hj)
      as (s2 & Hs2 & Hc2).
    fold devices in Hs2. rewrite Htj in Hc2.
    assert (polls (ps1 ++ (i, now1, r1) :: ps2) (initial_world d, devices) = st2)
      as Hst2.
    { unfold polls. rewrite fold_left_app. reflexivity. }
    rewrite Hst2 in Hs2.
    assert (exists t, throttle (fst st2) = Some t /\ now1 <= t) as (t & Ht & Hle).
    { pose proof (polls_same_identity devices (ps1 ++ [(i, now1, r1)])
                    (initial_world d) devices (same_identity_diag devices))
        as Hl1.
      assert (polls (ps1 ++ [(i, now1, r1)]) (initial_world d, devices) = st1')
        as Hst1'.
      { unfold polls. rewrite fold_left_app. reflexivity. }
      rewrite Hst1' in Hl1. subst st2.
      destruct st1' as [w1' l1']. simpl in Hth, Hl1.
      eapply polls_throttle_le;
        [apply (async_setup_entry_wired d) | exact Hl1 | exact Hth | lia]. }
    subst st2'. destruct st2 as [w2 l2]. simpl in Hs2, Ht.
    pose proof (poll_trend w2 l2 j now2 r2 s2 Hs2 Hc2) as Hp.
    cbv zeta in Hp.
    assert (lets_through w2 now2 = false) as Hno.
    { unfold lets_through. rewrite Ht. apply Z.ltb_ge.
      unfold MIN_TIME_BETWEEN_DAILY_UPDATES. lia. }
    rewrite Hno in Hp. cbn [fst]. apply Hp.
  - intros Hti. apply String.eqb_eq in Hti. rewrite Hti in Hc1.
    subst st1'. destruct st1 as [w1 l1]. simpl in Hs1. cbn [fst].
    apply (poll_active w1 l1 i now1 r1 s1 Hs1 Hc1).
Qed.

End sense_properties.

(** *** The properties at the sample inputs *)

Section sense_witnesses.

Import sense.

Example round_half_to_even :
  round (Fixed3 2500) = 2 /\
  round (Fixed3 3500) = 4 /\
  round (Fixed3 (-2500)) = -2 /\
  round (Fixed3 512499) = 512 /\
  round_ndigits (Fixed3 12250) 1 = Fixed3 12200 /\
  round_ndigits (Fixed3 12350) 1 = Fixed3 12400.
Proof. repeat split. Qed.

Example sample_devices :
  map (fun self =>
         (Sense_name self, Sense_unique_id self, Sense_unit_of_measurement self))
    samples.devices =
  [ ("Energy Production", "abc12-active-production", "W");
    ("Energy Usage", "abc12-active-usage", "W");
    ("Daily Production", "abc12-daily-production", "kWh");
    ("Daily Usage", "abc12-daily-usage", "kWh");
    ("Weekly Production", "abc12-weekly-production", "kWh");
    ("Weekly Usage", "abc12-weekly-usage", "kWh");
    ("Monthly Production", "abc12-monthly-production", "kWh");
    ("Monthly Usage", "abc12-monthly-usage", "kWh");
    ("Yearly Production", "abc12-yearly-production", "kWh");
    ("Yearly Usage", "abc12-yearly-usage", "kWh") ].
Proof. reflexivity. Qed.

(** Four polls: the active production sensor, two trend sensors 10 seconds
    apart (the second is throttled), and the active usage sensor on a
    timeout. *)
Example sample_polls :
  let '(w, l) :=
    polls [ (0%nat, timedelta 10, samples.ok);
            (2%nat, timedelta 20, samples.ok);
            (3%nat, timedelta 30, samples.ok);
            (1%nat, timedelta 40, samples.timeout) ]
      (initial_world samples.readings, samples.devices) in
  throttle w = Some (timedelta 20) /\
  calls w = [ RealtimeFetch (timedelta 10); TrendFetch (timedelta 20);
              RealtimeFetch (timedelta 40) ] /\
  log w = ["Timeout retrieving data"] /\
  take 4 (map (fun self => (Sense_state self, Sense_available self)) l) =
    [ (Some (VInt 4), true); (None, false);
      (Some (VNum (Fixed3 12200)), true); (Some (VNum (Fixed3 12200)), true) ].
Proof. vm_compute. repeat split. Qed.

Lemma async_update_timeout_keeps_state_witness :
  let w := initial_world samples.readings in
  let w' := requested (RealtimeFetch 10) samples.timeout w in
  run (update_sensor samples.active_usage 10 samples.timeout) w =
    (Raise SenseAPITimeoutException, w') /\
  (let '(r, (w1, self1)) :=
     run (async_update 10 samples.timeout) (w, samples.active_usage) in
   r = Normal tt /\
   log w1 = list_append (log w') "Timeout retrieving data" /\
   Sense_state self1 = Sense_state samples.active_usage /\
   Sense_available self1 = Sense_available samples.active_usage /\
   self1 = samples.active_usage).
Proof.
  intros w w'.
  assert (run (update_sensor samples.active_usage 10 samples.timeout) w =
            (Raise SenseAPITimeoutException, w')) as Hcall by reflexivity.
  split; [exact Hcall |].
  exact (async_update_timeout_keeps_state 10 samples.timeout w w'
           samples.active_usage Hcall).
Defined.

Lemma async_update_refreshes_state_witness :
  let w := initial_world samples.readings in
  let w' :=
    requested (TrendFetch 10) samples.ok
      {| data := data w; throttle := Some 10; calls := calls w; log := log w |} in
  run (update_sensor samples.daily_production 10 samples.ok) w = (Normal tt, w') /\
  (let '(r, (w1, self1)) :=
     run (async_update 10 samples.ok) (w, samples.daily_production) in
   r = Normal tt /\
   w1 = w' /\
   Sense_state self1 = Some (VNum (Fixed3 12200)) /\
   Sense_available self1 = true /\
   Sense_name self1 = "Daily Production" /\
   Sense_unit_of_measurement self1 = "kWh").
Proof.
  intros w w'.
  assert (run (update_sensor samples.daily_production 10 samples.ok) w =
            (Normal tt, w')) as Hcall by reflexivity.
  split; [exact Hcall |].
  exact (async_update_refreshes_state 10 samples.ok w w'
           samples.daily_production Hcall).
Defined.

Lemma async_update_propagates_other_exceptions_witness :
  let w := initial_world samples.readings in
  let w' := requested (RealtimeFetch 10) samples.auth_failure w in
  let e := OtherException "SenseAuthenticationException" in
  e <> SenseAPITimeoutException /\
  run (update_sensor samples.active_usage 10 samples.auth_failure) w =
    (Raise e, w') /\
  run (async_update 10 samples.auth_failure) (w, samples.active_usage) =
    (Raise e, (w', samples.active_usage)).
Proof.
  intros w w' e.
  assert (e <> SenseAPITimeoutException) as Hne by discriminate.
  assert (run (update_sensor samples.active_usage 10 samples.auth_failure) w =
            (Raise e, w')) as Hcall by reflexivity.
  split; [exact Hne |]. split; [exact Hcall |].
  exact (async_update_propagates_other_exceptions 10 samples.auth_failure w w'
           samples.active_usage e Hne Hcall).
Defined.

Lemma unit_name_and_unique_id_are_fixed_witness :
  "W" <> "kWh" /\
  (Sense_unit_of_measurement samples.active_usage = "W" <->
   ACTIVE_TYPE = ACTIVE_TYPE) /\
  (let self' :=
     snd (updates [(10, samples.ok); (20, samples.timeout)]
            (initial_world samples.readings, samples.daily_production)) in
   Sense_unit_of_measurement self' =
     Sense_unit_of_measurement samples.daily_production /\
   Sense_name self' = Sense_name samples.daily_production /\
   Sense_unique_id self' = Sense_unique_id samples.daily_production).
Proof.
  assert ("W" <> "kWh") as Hunits by discriminate.
  destruct (unit_name_and_unique_id_are_fixed (num := fixed3) "W" "kWh" Hunits)
    as [Hinit Hupdates].
  split; [exact Hunits |]. split.
  - exact (proj1 (proj2 (Hinit ACTIVE_NAME ACTIVE_TYPE false update_active
                           "usage" "abc12-active-usage"))).
  - exact (Hupdates [(10, samples.ok); (20, samples.timeout)]
             (initial_world samples.readings) samples.daily_production).
Defined.

Lemma availability_is_monotone_witness :
  let w := initial_world samples.readings in
  let self := samples.active_usage in
  run (update_sensor (snd (updates [(5, samples.timeout)] (w, self))) 10 samples.ok)
    (fst (updates [(5, samples.timeout)] (w, self))) =
    (Normal tt,
     requested (RealtimeFetch 10) samples.ok
       (fst (updates [(5, samples.timeout)] (w, self)))) /\
  Sense_available
    (snd (updates ([(5, samples.timeout)] ++ (10, samples.ok) :: [(20, samples.timeout)])
            (w, self))) = true.
Proof.
  intros w self.
  assert (run (update_sensor (snd (updates [(5, samples.timeout)] (w, self)))
                 10 samples.ok)
            (fst (updates [(5, samples.timeout)] (w, self))) =
          (Normal tt,
           requested (RealtimeFetch 10) samples.ok
             (fst (updates [(5, samples.timeout)] (w, self))))) as Hcall
    by reflexivity.
  split; [exact Hcall |].
  exact (proj2 (proj2 (proj2 (availability_is_monotone (num := fixed3) "W" "kWh")))
           [(5, samples.timeout)] 10 samples.ok [(20, samples.timeout)] w _ self
           Hcall).
Defined.

Lemma trend_updates_are_throttled_witness :
  let st0 := (initial_world samples.readings, samples.devices) in
  let daily := poll st0 (2%nat, timedelta 10, samples.ok) in
  let between := polls [(0%nat, timedelta 100, samples.ok)] daily in
  let active := poll st0 (1%nat, timedelta 10, samples.ok) in
  samples.devices !! 2%nat = Some samples.daily_production /\
  samples.devices !! 1%nat = Some samples.active_usage /\
  _sensor_type samples.daily_production <> ACTIVE_TYPE /\
  _sensor_type samples.active_usage = ACTIVE_TYPE /\
  calls (fst daily) = list_append (calls (fst st0)) (TrendFetch (timedelta 10)) /\
  timedelta 309 - timedelta 10 < timedelta 300 /\
  calls (fst (poll between (2%nat, timedelta 309, samples.ok))) =
    calls (fst between) /\
  calls (fst active) = list_append (calls (fst st0)) (RealtimeFetch (timedelta 10)).
Proof.
  intros st0 daily between active.
  assert (samples.devices !! 2%nat = Some samples.daily_production) as H2
    by reflexivity.
  assert (samples.devices !! 1%nat = Some samples.active_usage) as H1
    by reflexivity.
  assert (_sensor_type samples.daily_production <> ACTIVE_TYPE) as Htrend
    by discriminate.
  assert (_sensor_type samples.active_usage = ACTIVE_TYPE) as Hactive
    by reflexivity.
  assert (calls (fst daily) =
            list_append (calls (fst st0)) (TrendFetch (timedelta 10))) as Hfetch
    by reflexivity.
  assert (timedelta 309 - timedelta 10 < timedelta 300) as Hlt by reflexivity.
  repeat (split; [assumption |]). split.
  - exact (proj1 (trend_updates_are_throttled "W" "kWh" samples.readings []
                    [(0%nat, timedelta 100, samples.ok)] 2 2
                    (timedelta 10) (timedelta 309) samples.ok samples.ok
                    samples.daily_production samples.daily_production H2 H2)
             Htrend Htrend Hfetch Hlt).
  - exact (proj2 (trend_updates_are_throttled "W" "kWh" samples.readings []
                    [] 1 1 (timedelta 10) (timedelta 10) samples.ok samples.ok
                    samples.active_usage samples.active_usage H1 H1)
             Hactive).
Defined.

End sense_witnesses.

(** ** Properties of the Reddit platform *)

Section reddit_properties.

Import reddit.

(** C2: a configuration whose sort mode is not a recognized one is rejected
    by the validity check, and setup creates no entity: the states are as
    they were, and asking for the entity of a configured subreddit yields
    nothing. *)
Theorem invalid_sort_by_creates_no_entity
    (reddit : Reddit) (config : Config) (s : string)
    (states : gmap string State) :
  sort_by config = Some s ->
  ~ In s LIST_TYPES ->
  PLATFORM_SCHEMA config = None /\
  setup_component reddit config states = states /\
  (forall subreddit,
     In subreddit (subreddits config) ->
     setup_component reddit config ∅ !! ("sensor.reddit_" +:+ subreddit) = None).
Proof.
  intros Hs Hn.
  assert (PLATFORM_SCHEMA config = None) as Hschema.
  { unfold PLATFORM_SCHEMA. rewrite Hs. simpl default.
    destruct (existsb (String.eqb s) LIST_TYPES) eqn:E; [| reflexivity].
    apply existsb_exists in E as (x & Hx & Heq).
    apply String.eqb_eq in Heq. subst x. contradiction. }
  split; [exact Hschema |].
  unfold setup_component. rewrite Hschema.
  split; [reflexivity |]. intros subreddit _. apply lookup_empty.
Qed.

(** C3: every submission the wrapped library returns is exposed as a post of
    the seven fields id, url, title, score, comment count, creation time and
    body, each equal to the field [id], [url], [title], [score],
    [num_comments], [created], [selftext] of the submission; the posts are as
    many as the submissions, in the same order. *)
Theorem posts_are_copied_from_submissions
    (reddit : Reddit) (self : RedditSensor)
    (method : nat -> list Submission) (i : nat) (submission : Submission) :
  method_to_call (reddit (_subreddit self)) (_sort_by self) = Some method ->
  method (_limit self) !! i = Some submission ->
  let posts := ATTR_POSTS (device_state_attributes (update reddit self)) in
  length posts = length (method (_limit self)) /\
  exists post,
    posts !! i = Some post /\
    ATTR_ID post = id submission /\
    ATTR_URL post = url submission /\
    ATTR_TITLE post = title submission /\
    ATTR_SCORE post = score submission /\
    ATTR_COMMENTS_NUMBER post = num_comments submission /\
    ATTR_CREATED post = created submission /\
    ATTR_BODY post = selftext submission.
Proof.
  intros Hmethod Hi posts. subst posts.
  unfold device_state_attributes, update. simpl. rewrite Hmethod.
  split; [apply length_map |].
  exists (post_of_submission submission). split.
  - change (map post_of_submission (method (_limit self)))
      with (post_of_submission <$> method (_limit self)).
    rewrite list_lookup_fmap, Hi. reflexivity.
  - repeat split.
Qed.

(** C6: with the two mocked posts and the valid configuration, each of the
    two configured subreddits has an entity whose state is the number of
    posts, 2, whose subreddit attribute is the subreddit, whose first post is
    the expected literal, and whose sort mode is the default ["hot"]. *)
Theorem setup_with_valid_config :
  Forall
    (fun subreddit =>
       exists st,
         setup_component MockPraw VALID_CONFIG ∅
           !! ("sensor.reddit_" +:+ subreddit) = Some st /\
         state st = MOCK_RESULTS_LENGTH /\
         state st = 2%nat /\
         ATTR_SUBREDDIT (attributes st) = subreddit /\
         ATTR_POSTS (attributes st) !! 0%nat =
           Some {| ATTR_ID := PyInt 0;
                   ATTR_URL := PyStr "http://example.com/1";
                   ATTR_TITLE := PyStr "example1";
                   ATTR_SCORE := PyStr "1";
                   ATTR_COMMENTS_NUMBER := PyStr "1";
                   ATTR_CREATED := PyStr "";
                   ATTR_BODY := PyStr "example1 selftext" |} /\
         CONF_SORT_BY (attributes st) = "hot")
    ["worldnews"; "news"] /\
  subreddits VALID_CONFIG = ["worldnews"; "news"] /\
  sort_by VALID_CONFIG = None.
Proof.
  split; [| split; reflexivity].
  repeat constructor; eexists;
    (split; [vm_compute; reflexivity |]); repeat split.
Qed.

Example setup_with_valid_limited_config :
  state <$> setup_component MockPraw VALID_LIMITED_CONFIG ∅
              !! "sensor.reddit_news" = Some 1%nat.
Proof. vm_compute. reflexivity. Qed.

Lemma invalid_sort_by_creates_no_entity_witness :
  sort_by INVALID_SORT_BY_CONFIG = Some "invalid_sort_by" /\
  ~ In "invalid_sort_by" LIST_TYPES /\
  PLATFORM_SCHEMA INVALID_SORT_BY_CONFIG = None /\
  setup_component MockPraw INVALID_SORT_BY_CONFIG ∅ = ∅ /\
  setup_component MockPraw INVALID_SORT_BY_CONFIG ∅
    !! ("sensor.reddit_" +:+ "worldnews") = None.
Proof.
  assert (sort_by INVALID_SORT_BY_CONFIG = Some "invalid_sort_by") as Hs
    by reflexivity.
  assert (~ In "invalid_sort_by" LIST_TYPES) as Hn.
  { simpl. intros [H | [H | [H | [H | []]]]]; discriminate H. }
  destruct (invalid_sort_by_creates_no_entity MockPraw INVALID_SORT_BY_CONFIG
              "invalid_sort_by" ∅ Hs Hn) as (Hschema & Hstates & Hnone).
  repeat (split; [assumption |]).
  apply Hnone. simpl. left. reflexivity.
Defined.

Lemma posts_are_copied_from_submissions_witness :
  let self :=
    {| _subreddit := "news"; _limit := 10; _sort_by := "hot";
       _subreddit_data := [] |} in
  let posts := ATTR_POSTS (device_state_attributes (update MockPraw self)) in
  method_to_call (MockPraw "news") "hot" = Some (hot (MockPraw "news")) /\
  hot (MockPraw "news") 10%nat !! 1%nat =
    Some {| id := PyInt 1;
            url := PyStr "http://example.com/2";
            title := PyStr "example2";
            score := PyStr "2";
            num_comments := PyStr "2";
            created := PyStr "";
            selftext := PyStr "example2 selftext";
            other_fields := [] |} /\
  length posts = 2%nat /\
  exists post,
    posts !! 1%nat = Some post /\
    ATTR_ID post = PyInt 1 /\
    ATTR_URL post = PyStr "http://example.com/2" /\
    ATTR_TITLE post = PyStr "example2" /\
    ATTR_SCORE post = PyStr "2" /\
    ATTR_COMMENTS_NUMBER post = PyStr "2" /\
    ATTR_CREATED post = PyStr "" /\
    ATTR_BODY post = PyStr "example2 selftext".
Proof.
  intros self posts.
  assert (method_to_call (MockPraw (_subreddit self)) (_sort_by self) =
            Some (hot (MockPraw "news"))) as Hmethod by reflexivity.
  assert (hot (MockPraw "news") (_limit self) !! 1%nat =
            Some {| id := PyInt 1;
                    url := PyStr "http://example.com/2";
                    title := PyStr "example2";
                    score := PyStr "2";
                    num_comments := PyStr "2";
                    created := PyStr "";
                    selftext := PyStr "example2 selftext";
                    other_fields := [] |}) as Hi by reflexivity.
  split; [exact Hmethod |]. split; [exact Hi |].
  exact (posts_are_copied_from_submissions MockPraw self _ 1%nat _ Hmethod Hi).
Defined.

End reddit_properties.

(** ** Further properties of the Sense platform *)

Section sense_runs.

Import sense.

Context {num : Type} `{!Round num}.

Variables POWER_WATT ENERGY_KILO_WATT_HOUR : string.

Implicit Types (self : Sense num) (w : World num) (resp : response num)
  (now : Z) (l : list (Sense num)) (ps : list (nat * Z * response num)).

(** *** One update of a sensor built by [async_setup_entry] *)

(** What [async_update] leaves behind, from the answer of the service
    alone: the world, and the sensor. *)
Lemma async_update_wired now resp w self :
  wired self ->
  snd (run (async_update now resp) (w, self)) =
  if String.eqb (_sensor_type self) ACTIVE_TYPE then
    (after_request (RealtimeFetch now) resp w,
     match resp_exn resp with
     | Some _ => self
     | None => refreshed (resp_data resp) self
     end)
  else if lets_through w now then
    (after_request (TrendFetch now) resp (stamped now w),
     match resp_exn resp with
     | Some _ => self
     | None => refreshed (resp_data resp) self
     end)
  else (w, refreshed (data w) self).
Proof.
  unfold wired. intros Hw. rewrite run_async_update, Hw.
  unfold after_request, timed_out, answer.
  destruct (String.eqb (_sensor_type self) ACTIVE_TYPE).
  - rewrite run_update_active. unfold answer.
    destruct (resp_exn resp) as [e |]; simpl;
      [destruct (is_SenseAPITimeoutException e) |]; reflexivity.
  - rewrite run_update_trends. destruct (lets_through w now); [| reflexivity].
    unfold answer, stamped.
    destruct (resp_exn resp) as [e |]; simpl;
      [destruct (is_SenseAPITimeoutException e) |]; reflexivity.
Qed.

Lemma refreshed_same_identity (d : SenseData num) self :
  same_identity self (refreshed d self).
Proof. repeat split. Qed.

Lemma refreshed_eq (d : SenseData num) self1 self2 :
  same_identity self1 self2 -> refreshed d self1 = refreshed d self2.
Proof.
  destruct self1, self2. unfold same_identity, refreshed. simpl.
  intros (-> & -> & -> & -> & -> & ->). reflexivity.
Qed.

Lemma poll_wired w l p : Forall wired l -> Forall wired (snd (poll (w, l) p)).
Proof.
  intros Hl. destruct p as [[i now] resp]. unfold poll. cbn [fst snd].
  destruct (l !! i) as [self |] eqn:Hi; [| exact Hl].
  pose proof (async_update_same_identity now resp w self) as Hs.
  destruct (run (async_update now resp) (w, self)) as [r [w1 self1]].
  cbn [fst snd] in *. apply Forall_insert; [exact Hl |].
  eapply wired_same_identity; [exact Hs |].
  exact (proj1 (Forall_lookup wired l) Hl i self Hi).
Qed.

(** The world after a poll. *)
Lemma poll_world w l i now resp :
  Forall wired l ->
  fst (poll (w, l) (i, now, resp)) =
  match l !! i with
  | None => w
  | Some self =>
      if String.eqb (_sensor_type self) ACTIVE_TYPE
      then after_request (RealtimeFetch now) resp w
      else if lets_through w now
           then after_request (TrendFetch now) resp (stamped now w)
           else w
  end.
Proof.
  intros Hl. unfold poll. cbn [fst snd].
  destruct (l !! i) as [self |] eqn:Hi; [| reflexivity].
  pose proof (async_update_wired now resp w self
                (proj1 (Forall_lookup wired l) Hl i self Hi)) as Hu.
  destruct (run (async_update now resp) (w, self)) as [r [w1 self1]].
  cbn [fst snd] in *.
  destruct (String.eqb (_sensor_type self) ACTIVE_TYPE);
    [| destruct (lets_through w now)]; congruence.
Qed.

Lemma calls_after_request (c : call) resp w :
  calls (after_request c resp w) = list_append (calls w) c.
Proof. unfold after_request. destruct (timed_out resp); reflexivity. Qed.

Lemma throttle_after_request (c : call) resp w :
  throttle (after_request c resp w) = throttle w.
Proof. unfold after_request. destruct (timed_out resp); reflexivity. Qed.

Lemma data_after_request (c : call) resp w :
  data (after_request c resp w) = resp_data resp.
Proof. unfold after_request. destruct (timed_out resp); reflexivity. Qed.

Lemma log_after_request (c : call) resp w :
  log (after_request c resp w) =
  if timed_out resp then list_append (log w) "Timeout retrieving data"
  else log w.
Proof. unfold after_request. destruct (timed_out resp); reflexivity. Qed.

(** The sensor types at an index do not change through the polls. *)
Lemma is_active_same_identity (l0 l : list (Sense num)) i :
  Forall2 same_identity l0 l -> is_active l i = is_active l0 i.
Proof.
  intros Hl. unfold is_active.
  destruct (l !! i) as [self |] eqn:Hi.
  - destruct (Forall2_lookup_r _ _ _ _ _ Hl Hi) as (self0 & -> & Hid).
    destruct Hid as (_ & _ & -> & _). reflexivity.
  - destruct (l0 !! i) as [self0 |] eqn:Hi0; [| reflexivity].
    destruct (Forall2_lookup_l _ _ _ _ _ Hl Hi0) as (self & Hi' & _).
    congruence.
Qed.

(** *** The request log of a config entry *)

Lemma same_identity_wired (l0 l : list (Sense num)) :
  Forall wired l0 -> Forall2 same_identity l0 l -> Forall wired l.
Proof.
  intros Hw Hl. apply Forall_lookup. intros i self Hi.
  destruct (Forall2_lookup_r _ _ _ _ _ Hl Hi) as (self0 & Hi0 & Hid).
  eapply wired_same_identity; [exact Hid |].
  exact (proj1 (Forall_lookup wired l0) Hw i self0 Hi0).
Qed.

Lemma realtime_times_append (cs : list call) (c : call) :
  realtime_times (list_append cs c) =
  (realtime_times cs ++
     match c with RealtimeFetch t => [t] | TrendFetch _ => [] end)%list.
Proof.
  unfold realtime_times, list_append. rewrite omap_app.
  destruct c; reflexivity.
Qed.

Lemma trend_times_append (cs : list call) (c : call) :
  trend_times (list_append cs c) =
  (trend_times cs ++
     match c with RealtimeFetch _ => [] | TrendFetch t => [t] end)%list.
Proof.
  unfold trend_times, list_append. rewrite omap_app.
  destruct c; reflexivity.
Qed.

Lemma polls_realtime_times (l0 : list (Sense num)) ps w l :
  Forall wired l0 -> Forall2 same_identity l0 l ->
  realtime_times (calls (fst (polls ps (w, l)))) =
  (realtime_times (calls w) ++ active_poll_times l0 ps)%list.
Proof.
  intros Hw0. revert w l.
  induction ps as [| [[i now] resp] ps IH]; intros w l Hl.
  - simpl. rewrite app_nil_r. reflexivity.
  - change (polls ((i, now, resp) :: ps) (w, l))
      with (polls ps (poll (w, l) (i, now, resp))).
    pose proof (same_identity_wired l0 l Hw0 Hl) as Hwl.
    pose proof (poll_world w l i now resp Hwl) as Hworld.
    pose proof (poll_same_identity l0 w l (i, now, resp) Hl) as Hl1.
    destruct (poll (w, l) (i, now, resp)) as [w1 l1]. cbn [fst snd] in *.
    rewrite (IH w1 l1 Hl1). subst w1.
    unfold active_poll_times at 2. cbn [omap list_omap fst snd].
    fold (active_poll_times l0 ps).
    rewrite <- (is_active_same_identity l0 l i Hl). unfold is_active.
    destruct (l !! i) as [self |]; [| reflexivity].
    destruct (String.eqb (_sensor_type self) ACTIVE_TYPE).
    + rewrite calls_after_request, realtime_times_append, <- app_assoc.
      reflexivity.
    + destruct (lets_through w now); [| reflexivity].
      rewrite calls_after_request, realtime_times_append, app_nil_r.
      reflexivity.
Qed.

(** In a log of trend requests more than the minimum time apart, no
    request is later than the last one. *)
Lemma trend_times_le_last (ts : list Z) (t x : Z) :
  StronglySorted (more_than_apart MIN_TIME_BETWEEN_DAILY_UPDATES) ts ->
  last ts = Some t -> x ∈ ts -> x <= t.
Proof.
  intros Hs Hlast Hx. apply last_Some in Hlast as [ts' ->].
  apply elem_of_app in Hx as [Hx | Hx].
  - assert (more_than_apart MIN_TIME_BETWEEN_DAILY_UPDATES x t) as Hgap.
    { eapply StronglySorted_app_1_elem_of; [exact Hs | exact Hx |].
      apply list_elem_of_singleton. reflexivity. }
    unfold more_than_apart, MIN_TIME_BETWEEN_DAILY_UPDATES, timedelta in Hgap.
    lia.
  - apply list_elem_of_singleton in Hx. lia.
Qed.

(** The stamp of the throttle is the time of the last trend request, and the
    trend requests are more than the minimum time apart: kept by a poll. *)
Lemma poll_trend_log w l p :
  Forall wired l ->
  throttle w = last (trend_times (calls w)) ->
  StronglySorted (more_than_apart MIN_TIME_BETWEEN_DAILY_UPDATES)
    (trend_times (calls w)) ->
  throttle (fst (poll (w, l) p)) =
    last (trend_times (calls (fst (poll (w, l) p)))) /\
  StronglySorted (more_than_apart MIN_TIME_BETWEEN_DAILY_UPDATES)
    (trend_times (calls (fst (poll (w, l) p)))).
Proof.
  intros Hl Hth Hs. destruct p as [[i now] resp].
  rewrite (poll_world w l i now resp Hl).
  destruct (l !! i) as [self |]; [| auto].
  destruct (String.eqb (_sensor_type self) ACTIVE_TYPE).
  - rewrite throttle_after_request, calls_after_request, trend_times_append,
      app_nil_r. auto.
  - destruct (lets_through w now) eqn:Hlet; [| auto].
    rewrite throttle_after_request, calls_after_request, trend_times_append.
    cbn [stamped throttle calls]. split.
    + rewrite last_snoc. reflexivity.
    + apply StronglySorted_app_2; [| exact Hs | repeat constructor].
      intros x1 x2 Hx1 Hx2. apply list_elem_of_singleton in Hx2. subst x2.
      unfold lets_through in Hlet. rewrite Hth in Hlet.
      destruct (last (trend_times (calls w))) as [t |] eqn:Hlast.
      * apply Z.ltb_lt in Hlet.
        pose proof (trend_times_le_last _ t x1 Hs Hlast Hx1).
        unfold more_than_apart. lia.
      * apply last_None in Hlast. rewrite Hlast in Hx1.
        apply elem_of_nil in Hx1. contradiction.
Qed.

Lemma polls_trend_log ps w l :
  Forall wired l ->
  throttle w = last (trend_times (calls w)) ->
  StronglySorted (more_than_apart MIN_TIME_BETWEEN_DAILY_UPDATES)
    (trend_times (calls w)) ->
  throttle (fst (polls ps (w, l))) =
    last (trend_times (calls (fst (polls ps (w, l))))) /\
  StronglySorted (more_than_apart MIN_TIME_BETWEEN_DAILY_UPDATES)
    (trend_times (calls (fst (polls ps (w, l))))).
Proof.
  revert w l. induction ps as [| p ps IH]; intros w l Hl Hth Hs; [auto |].
  change (polls (p :: ps) (w, l)) with (polls ps (poll (w, l) p)).
  pose proof (poll_trend_log w l p Hl Hth Hs) as [Hth1 Hs1].
  pose proof (poll_wired w l p Hl) as Hl1.
  destruct (poll (w, l) p) as [w1 l1]. cbn [fst snd] in *.
  apply IH; assumption.
Qed.

(** The records of the logger: one timeout message for some of the polls
    answered with a timeout, and nothing else. *)
Lemma polls_log ps w l :
  Forall wired l ->
  exists k,
    log (fst (polls ps (w, l))) =
      (log w ++ replicate k "Timeout retrieving data")%list /\
    (k <= timeouts ps)%nat.
Proof.
  revert w l. induction ps as [| [[i now] resp] ps IH]; intros w l Hl.
  - exists 0%nat. simpl. rewrite app_nil_r. auto.
  - change (polls ((i, now, resp) :: ps) (w, l))
      with (polls ps (poll (w, l) (i, now, resp))).
    pose proof (poll_world w l i now resp Hl) as Hworld.
    pose proof (poll_wired w l (i, now, resp) Hl) as Hl1.
    destruct (poll (w, l) (i, now, resp)) as [w1 l1]. cbn [fst snd] in *.
    destruct (IH w1 l1 Hl1) as (k & Hlog & Hk). rewrite Hlog.
    unfold timeouts in *. cbn [List.filter snd].
    assert (log w1 = log w /\ True \/
            timed_out resp = true /\
            log w1 = list_append (log w) "Timeout retrieving data") as Hcase.
    { subst w1. destruct (l !! i) as [self |]; [| auto].
      destruct (String.eqb (_sensor_type self) ACTIVE_TYPE);
        [| destruct (lets_through w now); [| auto]];
        rewrite log_after_request; destruct (timed_out resp); auto. }
    destruct Hcase as [[-> _] | [Hto ->]].
    + exists k. split; [reflexivity |].
      destruct (timed_out resp); simpl; lia.
    + exists (S k). rewrite Hto. unfold list_append. rewrite <- app_assoc.
      split; [reflexivity | simpl; lia].
Qed.

Lemma polls_wired ps w l :
  Forall wired l -> Forall wired (snd (polls ps (w, l))).
Proof.
  revert w l. induction ps as [| p ps IH]; intros w l Hl; [exact Hl |].
  change (polls (p :: ps) (w, l)) with (polls ps (poll (w, l) p)).
  pose proof (poll_wired w l p Hl) as Hl1.
  destruct (poll (w, l) p) as [w1 l1]. apply IH, Hl1.
Qed.

(** X1: the realtime requests of a config entry are exactly the polls of its
    active sensors, in order and with their times: no poll of an active
    sensor is skipped and no trend sensor ever sends a realtime request. *)
Theorem realtime_requests_follow_active_polls (d : SenseData num) ps :
  let devices := async_setup_entry POWER_WATT ENERGY_KILO_WATT_HOUR d in
  realtime_times (calls (fst (polls ps (initial_world d, devices)))) =
  active_poll_times devices ps.
Proof.
  intros devices.
  exact (polls_realtime_times devices ps (initial_world d) devices
           (async_setup_entry_wired POWER_WATT ENERGY_KILO_WATT_HOUR d)
           (same_identity_diag devices)).
Qed.

(** X2: whatever the polls, any two trend requests of a config entry are
    more than [MIN_TIME_BETWEEN_DAILY_UPDATES] apart, the later after the
    earlier. *)
Theorem trend_requests_are_spaced (d : SenseData num) ps :
  let devices := async_setup_entry POWER_WATT ENERGY_KILO_WATT_HOUR d in
  StronglySorted (more_than_apart MIN_TIME_BETWEEN_DAILY_UPDATES)
    (trend_times (calls (fst (polls ps (initial_world d, devices))))).
Proof.
  intros devices.
  apply (polls_trend_log ps (initial_world d) devices).
  - apply async_setup_entry_wired.
  - reflexivity.
  - constructor.
Qed.

(** X3: the time stamp of the throttle is the time of the last trend
    request, and a poll of a trend sensor sends a trend request exactly when
    none was sent before or the last one is more than
    [MIN_TIME_BETWEEN_DAILY_UPDATES] old. *)
Theorem trend_request_sent_exactly_when_due (d : SenseData num)
    ps j now resp :
  let devices := async_setup_entry POWER_WATT ENERGY_KILO_WATT_HOUR d in
  let st := polls ps (initial_world d, devices) in
  is_trend devices j = true ->
  throttle (fst st) = last (trend_times (calls (fst st))) /\
  calls (fst (poll st (j, now, resp))) =
    match last (trend_times (calls (fst st))) with
    | Some t =>
        if MIN_TIME_BETWEEN_DAILY_UPDATES <? now - t
        then list_append (calls (fst st)) (TrendFetch now)
        else calls (fst st)
    | None => list_append (calls (fst st)) (TrendFetch now)
    end.
Proof.
  intros devices st Hj.
  pose proof (async_setup_entry_wired POWER_WATT ENERGY_KILO_WATT_HOUR d) as Hw0.
  fold devices in Hw0.
  assert (throttle (fst st) = last (trend_times (calls (fst st)))) as Hth.
  { apply (polls_trend_log ps (initial_world d) devices);
      [exact Hw0 | reflexivity | constructor]. }
  split; [exact Hth |].
  pose proof (polls_wired ps (initial_world d) devices Hw0) as Hwl.
  pose proof (polls_same_identity devices ps (initial_world d) devices
                (same_identity_diag devices)) as Hl.
  fold st in Hwl, Hl. destruct st as [w l]. cbn [fst snd] in *.
  rewrite (poll_world w l j now resp Hwl).
  unfold is_trend in Hj.
  destruct (devices !! j) as [self0 |] eqn:Hj0; [| discriminate].
  destruct (Forall2_lookup_l _ _ _ _ _ Hl Hj0) as (self & -> & Hid).
  destruct Hid as (_ & _ & -> & _).
  apply negb_true_iff in Hj. rewrite Hj.
  unfold lets_through. rewrite Hth.
  destruct (last (trend_times (calls w))) as [t |];
    [destruct (MIN_TIME_BETWEEN_DAILY_UPDATES <? now - t) |];
    rewrite ?calls_after_request; reflexivity.
Qed.

(** X4: the logger of a config entry only ever holds the timeout message, at
    most once per poll that the service answers with a timeout; without
    timeouts nothing is logged. *)
Theorem only_timeouts_are_logged (d : SenseData num) ps :
  let devices := async_setup_entry POWER_WATT ENERGY_KILO_WATT_HOUR d in
  exists k,
    log (fst (polls ps (initial_world d, devices))) =
      replicate k "Timeout retrieving data" /\
    (k <= timeouts ps)%nat.
Proof.
  intros devices.
  destruct (polls_log ps (initial_world d) devices
              (async_setup_entry_wired POWER_WATT ENERGY_KILO_WATT_HOUR d))
    as (k & Hlog & Hk).
  exists k. split; [exact Hlog | exact Hk].
Qed.

(** *** The state of one sensor through its updates *)

(** X5: a refresh overwrites: when the update call completes without
    raising, the world and the sensor after [async_update] do not depend on
    the state or the availability the sensor had before. *)
Theorem async_update_overwrites_state now resp w w' self1 self2 :
  same_identity self1 self2 ->
  run (update_sensor self1 now resp) w = (Normal tt, w') ->
  snd (run (async_update now resp) (w, self1)) =
  snd (run (async_update now resp) (w, self2)).
Proof.
  intros Hid Hcall. rewrite !run_async_update.
  destruct Hid as (Hn & Hi & Ht & Hu & Hp & Hm).
  rewrite Hu, Hcall. cbn [snd]. f_equal.
  apply refreshed_eq. repeat split; assumption.
Qed.

Lemma updates_fresh_or_refreshed (us : list (Z * response num)) w self0 self :
  self = self0 \/ (exists d, self = refreshed d self0) ->
  snd (updates us (w, self)) = self0 \/
  exists d, snd (updates us (w, self)) = refreshed d self0.
Proof.
  revert w self. induction us as [| [now resp] us IH]; intros w self Hself.
  - exact Hself.
  - change (updates ((now, resp) :: us) (w, self))
      with (updates us (snd (run (async_update now resp) (w, self)))).
    pose proof (run_async_update now resp w self) as Hrun.
    destruct (run (async_update now resp) (w, self)) as [r [w1 self1]].
    cbn [snd]. apply IH.
    assert (self1 = self \/ exists d, self1 = refreshed d self) as [-> | [d ->]].
    { destruct (run (update_sensor self now resp) w) as [[a | | e] w2];
        [| | destruct (is_SenseAPITimeoutException e)];
        inversion Hrun; eauto. }
    + exact Hself.
    + right. exists d. destruct Hself as [-> | [d0 ->]]; [reflexivity |].
      symmetry. apply refreshed_eq, refreshed_same_identity.
Qed.

(** X6: through any sequence of updates a sensor is either exactly as
    [__init__] built it, or available with a state: the flag is set exactly
    when the state is not [None], and the state is an [int] for the type
    ["active"] and a rounded reading for every other type. *)
Theorem sensor_is_fresh_or_refreshed
    name sensor_type is_production
    (update_call : Z -> response num -> M (World num) unit)
    sensor_id unique_id (us : list (Z * response num)) w :
  let self0 :=
    Sense__init__ POWER_WATT ENERGY_KILO_WATT_HOUR name sensor_type
      is_production update_call sensor_id unique_id in
  let self := snd (updates us (w, self0)) in
  (Sense_available self = false -> self = self0) /\
  (Sense_available self = true <-> Sense_state self <> None) /\
  match Sense_state self with
  | None => True
  | Some (VInt _) => sensor_type = ACTIVE_TYPE
  | Some (VNum _) => sensor_type <> ACTIVE_TYPE
  end.
Proof.
  intros self0 self.
  destruct (updates_fresh_or_refreshed us w self0 self0 (or_introl eq_refl))
    as [Hfresh | [d Hrefreshed]]; fold self in Hfresh || fold self in Hrefreshed.
  - rewrite Hfresh. unfold Sense_available, Sense_state. simpl.
    repeat split; congruence.
  - rewrite Hrefreshed. unfold Sense_available, Sense_state. simpl.
    split; [discriminate |]. split; [split; congruence |].
    destruct (String.eqb_spec sensor_type ACTIVE_TYPE) as [Heq | Hneq];
      [destruct is_production |]; assumption.
Qed.

(** *** Sensors sharing the client *)

Lemma poll_unfold w l i now resp self :
  l !! i = Some self ->
  poll (w, l) (i, now, resp) =
  (fst (snd (run (async_update now resp) (w, self))),
   <[i := snd (snd (run (async_update now resp) (w, self)))]> l).
Proof.
  intros Hi. unfold poll. cbn [fst snd]. rewrite Hi.
  destruct (run (async_update now resp) (w, self)) as [r [w1 self1]].
  reflexivity.
Qed.

(** X7: a trend sensor polled less than 300 seconds after a poll that sent
    the trend request sends nothing, ignores the answer it would have got,
    and takes its state from the readings that request brought to the
    shared client. *)
Theorem throttled_sensor_shows_shared_reading (d : SenseData num)
    ps i j now1 now2 r1 r2 self_j :
  let devices := async_setup_entry POWER_WATT ENERGY_KILO_WATT_HOUR d in
  let st := polls ps (initial_world d, devices) in
  let st1 := poll st (i, now1, r1) in
  let st2 := poll st1 (j, now2, r2) in
  is_trend devices i = true ->
  devices !! j = Some self_j ->
  _sensor_type self_j <> ACTIVE_TYPE ->
  calls (fst st1) = list_append (calls (fst st)) (TrendFetch now1) ->
  now2 - now1 < timedelta 300 ->
  fst st2 = fst st1 /\
  data (fst st2) = resp_data r1 /\
  exists self,
    snd st2 !! j = Some self /\
    Sense_state self =
      Some (VNum (round_ndigits
                    (get_trend (resp_data r1) (_sensor_type self_j)
                       (_is_production self_j)) 1)) /\
    Sense_available self = true.
Proof.
  intros devices st st1 st2 Hi Hj Htype Hfetch Hlt.
  pose proof (async_setup_entry_wired POWER_WATT ENERGY_KILO_WATT_HOUR d) as Hw0.
  fold devices in Hw0.
  pose proof (polls_wired ps (initial_world d) devices Hw0) as Hwl.
  pose proof (polls_same_identity devices ps (initial_world d) devices
                (same_identity_diag devices)) as Hl.
  fold st in Hwl, Hl. subst st2 st1. destruct st as [w l].
  cbn [fst snd] in Hwl, Hl, Hfetch.
  (* the first poll went through the throttle *)
  pose proof (poll_world w l i now1 r1 Hwl) as Hworld.
  pose proof (poll_wired w l (i, now1, r1) Hwl) as Hwl1.
  pose proof (poll_same_identity devices w l (i, now1, r1) Hl) as Hl1.
  destruct (poll (w, l) (i, now1, r1)) as [w1 l1]. cbn [fst snd] in *.
  unfold is_trend in Hi.
  destruct (devices !! i) as [self_i |] eqn:Hi0; [| discriminate].
  destruct (Forall2_lookup_l _ _ _ _ _ Hl Hi0) as (si & Hsi & Hidi).
  destruct Hidi as (_ & _ & Hti & _).
  rewrite Hsi, Hti in Hworld. apply negb_true_iff in Hi. rewrite Hi in Hworld.
  destruct (lets_through w now1).
  2:{ subst w1. apply (f_equal length) in Hfetch.
      unfold list_append in Hfetch. rewrite length_app in Hfetch.
      simpl in Hfetch. lia. }
  (* the second poll is throttled *)
  destruct (Forall2_lookup_l _ _ _ _ _ Hl1 Hj) as (sj & Hsj & Hidj).
  pose proof (proj1 (Forall_lookup wired l1) Hwl1 j sj Hsj) as Hwj.
  rewrite (poll_unfold w1 l1 j now2 r2 sj Hsj),
    (async_update_wired now2 r2 w1 sj Hwj).
  destruct Hidj as (_ & _ & Htj & _ & Hpj & _).
  apply String.eqb_neq in Htype. rewrite Htj, Htype.
  assert (lets_through w1 now2 = false) as Hno.
  { unfold lets_through. subst w1. rewrite throttle_after_request.
    cbn [stamped throttle]. apply Z.ltb_ge.
    unfold MIN_TIME_BETWEEN_DAILY_UPDATES. lia. }
  rewrite Hno. cbn [fst snd]. split; [reflexivity |].
  assert (data w1 = resp_data r1) as Hdata
    by (subst w1; apply data_after_request).
  split; [exact Hdata |].
  exists (refreshed (data w1) sj). split.
  - apply list_lookup_insert_eq. eapply lookup_lt_Some, Hsj.
  - unfold Sense_state, Sense_available, refreshed. cbn.
    rewrite Htj, Htype, Hpj, Hdata. split; reflexivity.
Qed.

(** *** Unique ids across monitors *)

Lemma lower_ascii_idemp (c : ascii) : lower_ascii (lower_ascii c) = lower_ascii c.
Proof. destruct c as [[] [] [] [] [] [] [] []]; reflexivity. Qed.

Lemma lower_idemp (s : string) : lower (lower s) = lower s.
Proof.
  induction s as [| c s IH]; [reflexivity |].
  simpl. rewrite lower_ascii_idemp, IH. reflexivity.
Qed.

Lemma list_ascii_of_string_app (s1 s2 : string) :
  list_ascii_of_string (s1 +:+ s2) =
  (list_ascii_of_string s1 ++ list_ascii_of_string s2)%list.
Proof.
  induction s1 as [| c s1 IH]; [reflexivity |].
  change (String c s1 +:+ s2) with (String c (s1 +:+ s2)).
  simpl. rewrite IH. reflexivity.
Qed.

Lemma list_ascii_of_string_inj (s1 s2 : string) :
  list_ascii_of_string s1 = list_ascii_of_string s2 -> s1 = s2.
Proof.
  intros H. rewrite <- (string_of_list_ascii_of_string s1),
    <- (string_of_list_ascii_of_string s2), H. reflexivity.
Qed.

(** A unique id splits in one way only into a prefix and one of the ten
    suffixes. *)
Lemma unique_id_suffix_inj (x y s1 s2 : string) :
  s1 ∈ unique_id_suffixes -> s2 ∈ unique_id_suffixes ->
  x +:+ s1 = y +:+ s2 -> x = y /\ s1 = s2.
Proof.
  intros H1 H2 Heq.
  apply (f_equal list_ascii_of_string) in Heq.
  rewrite !list_ascii_of_string_app in Heq.
  apply (f_equal (@List.rev ascii)) in Heq.
  rewrite !rev_app_distr in Heq.
  assert (forall a b : string,
             List.rev (list_ascii_of_string a) = List.rev (list_ascii_of_string b) ->
             a = b) as Hrev.
  { intros a b H. apply list_ascii_of_string_inj.
    rewrite <- (rev_involutive (list_ascii_of_string a)), H.
    apply rev_involutive. }
  unfold unique_id_suffixes in H1, H2.
  repeat (apply elem_of_cons in H1 as [-> | H1]);
    [.. | apply elem_of_nil in H1; contradiction];
    (repeat (apply elem_of_cons in H2 as [-> | H2]);
     [.. | apply elem_of_nil in H2; contradiction]);
    cbn in Heq; try discriminate Heq;
    (split; [| reflexivity]); apply Hrev; congruence.
Qed.

(** X8: the unique ids are in lower case; two monitors whose ids agree up
    to case get the same unique ids, and two monitors whose ids differ
    beyond case share no unique id. *)
Theorem unique_ids_identify_the_monitor (d1 d2 : SenseData num) :
  let ids := fun d : SenseData num =>
    map Sense_unique_id
      (async_setup_entry POWER_WATT ENERGY_KILO_WATT_HOUR d) in
  Forall (fun u => lower u = u) (ids d1) /\
  (lower (sense_monitor_id d1) = lower (sense_monitor_id d2) ->
   ids d1 = ids d2) /\
  (forall u, In u (ids d1) -> In u (ids d2) ->
             lower (sense_monitor_id d1) = lower (sense_monitor_id d2)).
Proof.
  intros ids. subst ids. cbv beta.
  rewrite !async_setup_entry_unique_ids. repeat split.
  - apply Forall_fmap, Forall_forall. intros suffix Hs.
    unfold compose. cbv beta.
    rewrite lower_app, lower_idemp. f_equal.
    unfold unique_id_suffixes in Hs.
    repeat (apply elem_of_cons in Hs as [-> | Hs]); try reflexivity.
    apply elem_of_nil in Hs. contradiction.
  - intros ->. reflexivity.
  - intros u Hu1 Hu2.
    apply list_elem_of_In, list_elem_of_fmap in Hu1 as (s1 & -> & Hs1).
    apply list_elem_of_In, list_elem_of_fmap in Hu2 as (s2 & Heq & Hs2).
    exact (proj1 (unique_id_suffix_inj _ _ s1 s2 Hs1 Hs2 Heq)).
Qed.

(** *** The entities through the polls *)

Lemma same_identity_map {A} (f : Sense num -> A) (l0 l : list (Sense num)) :
  (forall self self', same_identity self self' -> f self' = f self) ->
  Forall2 same_identity l0 l -> map f l = map f l0.
Proof.
  intros Hf Hl. induction Hl as [| self self' l0 l Hid Hl IH]; [reflexivity |].
  simpl. rewrite (Hf self self' Hid), IH. reflexivity.
Qed.

(** X9: whatever the polls and their outcomes, the config entry keeps its
    ten entities, each with the name, the unique id, the unit, the sensor
    type and the variant it was created with. *)
Theorem polls_keep_the_entities (d : SenseData num) ps :
  let devices := async_setup_entry POWER_WATT ENERGY_KILO_WATT_HOUR d in
  let polled := snd (polls ps (initial_world d, devices)) in
  length polled = 10%nat /\
  map Sense_name polled = map Sense_name devices /\
  map Sense_unique_id polled = map Sense_unique_id devices /\
  map Sense_unit_of_measurement polled =
    map Sense_unit_of_measurement devices /\
  map (fun self => (_sensor_type self, _is_production self)) polled =
    map (fun self => (_sensor_type self, _is_production self)) devices.
Proof.
  intros devices polled.
  pose proof (polls_same_identity devices ps (initial_world d) devices
                (same_identity_diag devices)) as Hl.
  fold polled in Hl. split.
  - rewrite <- (Forall2_length _ _ _ Hl). reflexivity.
  - repeat split; apply same_identity_map; try exact Hl;
      intros self self' (Hn & Hi & Ht & Hu & Hp & Hm);
      unfold Sense_name, Sense_unique_id, Sense_unit_of_measurement;
      congruence.
Qed.

End sense_runs.

(** *** The further properties at the sample inputs *)

Section sense_runs_witnesses.

Import sense.

Lemma trend_request_sent_exactly_when_due_witness :
  let st :=
    polls [(2%nat, timedelta 10, samples.ok)]
      (initial_world samples.readings, samples.devices) in
  is_trend samples.devices 3 = true /\
  throttle (fst st) = Some (timedelta 10) /\
  calls (fst (poll st (3%nat, timedelta 200, samples.ok))) = calls (fst st) /\
  calls (fst (poll st (3%nat, timedelta 311, samples.ok))) =
    list_append (calls (fst st)) (TrendFetch (timedelta 311)).
Proof.
  intros st.
  assert (is_trend samples.devices 3 = true) as Htrend by reflexivity.
  split; [exact Htrend |]. split; [| split].
  - exact (proj1 (trend_request_sent_exactly_when_due "W" "kWh"
                    samples.readings [(2%nat, timedelta 10, samples.ok)]
                    3 (timedelta 200) samples.ok Htrend)).
  - exact (proj2 (trend_request_sent_exactly_when_due "W" "kWh"
                    samples.readings [(2%nat, timedelta 10, samples.ok)]
                    3 (timedelta 200) samples.ok Htrend)).
  - exact (proj2 (trend_request_sent_exactly_when_due "W" "kWh"
                    samples.readings [(2%nat, timedelta 10, samples.ok)]
                    3 (timedelta 311) samples.ok Htrend)).
Defined.

Lemma async_update_overwrites_state_witness :
  let w := initial_world samples.readings in
  let w' := requested (RealtimeFetch 20) samples.later w in
  let seen :=
    snd (snd (run (async_update 10 samples.ok) (w, samples.active_usage))) in
  same_identity samples.active_usage seen /\
  Sense_state seen = Some (VInt 512) /\
  run (update_sensor samples.active_usage 20 samples.later) w = (Normal tt, w') /\
  snd (run (async_update 20 samples.later) (w, samples.active_usage)) =
  snd (run (async_update 20 samples.later) (w, seen)).
Proof.
  intros w w' seen.
  assert (same_identity samples.active_usage seen) as Hid by (repeat split).
  assert (run (update_sensor samples.active_usage 20 samples.later) w =
            (Normal tt, w')) as Hcall by reflexivity.
  split; [exact Hid |]. split; [reflexivity |]. split; [exact Hcall |].
  exact (async_update_overwrites_state 20 samples.later w w'
           samples.active_usage seen Hid Hcall).
Defined.

Lemma sensor_is_fresh_or_refreshed_witness :
  let w := initial_world samples.readings in
  let failed :=
    snd (updates [(timedelta 10, samples.timeout); (timedelta 400, samples.auth_failure)]
           (w, samples.daily_production)) in
  let self :=
    snd (updates [(10, samples.timeout); (20, samples.ok)]
           (w, samples.daily_production)) in
  Sense_available failed = false /\
  failed = samples.daily_production /\
  Sense_available self = true /\
  Sense_state self <> None /\
  "DAY" <> ACTIVE_TYPE.
Proof.
  intros w failed self.
  assert (Sense_available failed = false) as Hfailed by reflexivity.
  assert (Sense_available self = true) as Hself by reflexivity.
  split; [exact Hfailed |]. split; [| split; [exact Hself | split]].
  - exact (proj1 (sensor_is_fresh_or_refreshed "W" "kWh" "Daily" "DAY" true
                    update_trends "production" "abc12-daily-production"
                    [(timedelta 10, samples.timeout); (timedelta 400, samples.auth_failure)] w)
             Hfailed).
  - exact (proj1 (proj1 (proj2 (sensor_is_fresh_or_refreshed "W" "kWh" "Daily"
                                  "DAY" true update_trends "production"
                                  "abc12-daily-production"
                                  [(10, samples.timeout); (20, samples.ok)] w)))
             Hself).
  - exact (proj2 (proj2 (sensor_is_fresh_or_refreshed "W" "kWh" "Daily" "DAY"
                           true update_trends "production"
                           "abc12-daily-production"
                           [(10, samples.timeout); (20, samples.ok)] w))).
Defined.

Lemma throttled_sensor_shows_shared_reading_witness :
  let st := (initial_world samples.readings, samples.devices) in
  let st1 := poll st (2%nat, timedelta 10, samples.later) in
  let st2 := poll st1 (3%nat, timedelta 200, samples.timeout) in
  is_trend samples.devices 2 = true /\
  samples.devices !! 3%nat = Some samples.daily_usage /\
  _sensor_type samples.daily_usage <> ACTIVE_TYPE /\
  calls (fst st1) = list_append (calls (fst st)) (TrendFetch (timedelta 10)) /\
  timedelta 200 - timedelta 10 < timedelta 300 /\
  fst st2 = fst st1 /\
  data (fst st2) = samples.readings_later /\
  exists self,
    snd st2 !! 3%nat = Some self /\
    Sense_state self = Some (VNum (Fixed3 13800)) /\
    Sense_available self = true.
Proof.
  intros st st1 st2.
  assert (is_trend samples.devices 2 = true) as Hi by reflexivity.
  assert (samples.devices !! 3%nat = Some samples.daily_usage) as Hj
    by reflexivity.
  assert (_sensor_type samples.daily_usage <> ACTIVE_TYPE) as Htype
    by discriminate.
  assert (calls (fst st1) =
            list_append (calls (fst st)) (TrendFetch (timedelta 10))) as Hfetch
    by reflexivity.
  assert (timedelta 200 - timedelta 10 < timedelta 300) as Hlt by reflexivity.
  repeat (split; [assumption |]).
  exact (throttled_sensor_shows_shared_reading "W" "kWh" samples.readings []
           2 3 (timedelta 10) (timedelta 200) samples.later samples.timeout
           samples.daily_usage Hi Hj Htype Hfetch Hlt).
Defined.

Lemma unique_ids_identify_the_monitor_witness :
  let ids := fun d : SenseData fixed3 =>
    map Sense_unique_id (async_setup_entry "W" "kWh" d) in
  lower (sense_monitor_id samples.readings) =
    lower (sense_monitor_id samples.readings_later) /\
  ids samples.readings = ids samples.readings_later /\
  In "abc12-daily-usage" (ids samples.readings) /\
  In "abc12-daily-usage" (ids samples.readings_later) /\
  lower "ABC12" = lower "abc12".
Proof.
  intros ids.
  assert (lower (sense_monitor_id samples.readings) =
            lower (sense_monitor_id samples.readings_later)) as Hlower
    by reflexivity.
  assert (In "abc12-daily-usage" (ids samples.readings)) as H1.
  { simpl. do 3 right. left. reflexivity. }
  assert (In "abc12-daily-usage" (ids samples.readings_later)) as H2.
  { simpl. do 3 right. left. reflexivity. }
  destruct (unique_ids_identify_the_monitor "W" "kWh"
              samples.readings samples.readings_later) as (_ & Hsame & Hshare).
  split; [exact Hlower |]. split; [exact (Hsame Hlower) |].
  split; [exact H1 |]. split; [exact H2 |].
  exact (Hshare "abc12-daily-usage" H1 H2).
Defined.

End sense_runs_witnesses.
